(** * react-stickup: the positioning decision engine of [Sticky],
      the shared offset of [StickyScrollUpProvider], and the
      native-sticky decision.

    The development embeds [lib/StickyProvider.tsx] and the current
    [lib/Sticky.tsx] (the second component of the sources, the one with
    [overflowScroll] and [experimentalNative]).

    Numbers.  A JavaScript [number] holding a layout measurement is
    modelled as an exact rational [Q]: [getBoundingClientRect] reports
    sub-pixel (fractional) coordinates, which is why the component rounds
    them.  [NaN], the infinities and the inexactness of binary floating
    point are outside the model. *)

From Stdlib Require Import QArith Qround Qabs Qminmax Lqa.
From Stdlib Require Import ZArith Lia Bool List String.
Import ListNotations.

Open Scope Q_scope.

(** ** The fragment of JavaScript the component uses *)

Module Js.

Definition number : Type := Q.

(** Relational operators on numbers, as booleans. *)
Definition le (x y : number) : bool := Qle_bool x y.
Definition lt (x y : number) : bool := negb (Qle_bool y x).
Definition ge (x y : number) : bool := le y x.
Definition gt (x y : number) : bool := lt y x.
(** [x === y] and [x !== y] on numbers. *)
Definition seq (x y : number) : bool := Qeq_bool x y.
Definition sne (x y : number) : bool := negb (Qeq_bool x y).

(** [Math.round]: the nearest integer, a half rounding towards
    positive infinity. *)
Definition Math_round (x : number) : number :=
  inject_Z (Qfloor (x + (1 # 2))).
Definition Math_min (x y : number) : number := Qmin x y.
Definition Math_max (x y : number) : number := Qmax x y.
Definition Math_abs (x : number) : number := Qabs x.

(** Truthiness of a number: [0] is falsy. *)
Definition truthy (x : number) : bool := negb (Qeq_bool x 0).

(** [o?.f || d] for a numeric field [f]: [undefined] and [0] are both
    falsy and give [d]. *)
Definition or_num (x : option number) (d : number) : number :=
  match x with
  | Some v => if truthy v then v else d
  | None => d
  end.

(** Optional chaining [o?.f]. *)
Definition chain {A B : Type} (o : option A) (f : A -> B) : option B :=
  match o with
  | Some a => Some (f a)
  | None => None
  end.

(** The outcome of evaluating an expression that may read a property
    of [undefined]. *)
Inductive result (A : Type) : Type :=
| Ok (a : A)
| TypeError.
Arguments Ok {A} a.
Arguments TypeError {A}.

Definition bind {A B : Type} (r : result A) (k : A -> result B)
  : result B :=
  match r with
  | Ok a => k a
  | TypeError => TypeError
  end.

(** Plain property access [o.f]: raises on [undefined]. *)
Definition prop {A B : Type} (o : option A) (f : A -> B) : result B :=
  match o with
  | Some a => Ok (f a)
  | None => TypeError
  end.

(** A reference to a DOM node or one of the two empty values, compared
    by identity with [!==]. *)
Inductive ref : Type :=
| undefined
| null
| node (id : nat).

Definition ref_sne (a b : ref) : bool :=
  match a, b with
  | undefined, undefined => false
  | null, null => false
  | node i, node j => negb (Nat.eqb i j)
  | _, _ => true
  end.

End Js.

Import Js.

Notation "x <- r ;; k" := (Js.bind r (fun x => k))
  (at level 61, r at next level, right associativity).
Notation "o ?. f" := (Js.chain o f) (at level 9, f at level 9).

(** ** Data model *)

(** [IRect] of react-viewport-utils; the fields the component reads. *)
Module IRect.
Record t : Type := mk { top : number; bottom : number; height : number }.
End IRect.

(** [IScroll] of react-viewport-utils; the fields the component reads. *)
Module IScroll.
Record t : Type := mk {
  y : number;
  yTurn : number;
  yDTurn : number;
  isScrollingUp : bool;
  isScrollingDown : bool
}.
End IScroll.

(** [IDimensions] of react-viewport-utils; the viewport height. *)
Module IDimensions.
Record t : Type := mk { height : number }.
End IDimensions.

(** The offset shared by the sticky regions of one provider. *)
Module StickyOffset.
Record t : Type := mk { top : number; height : number }.
End StickyOffset.

Inductive OverflowScrollType : Type := flow | end_.

Definition OverflowScrollType_eqb (a b : OverflowScrollType) : bool :=
  match a, b with
  | flow, flow => true
  | end_, end_ => true
  | _, _ => false
  end.

Inductive Position : Type := fixed | absolute.

Definition Position_eqb (a b : Position) : bool :=
  match a, b with
  | fixed, fixed => true
  | absolute, absolute => true
  | _, _ => false
  end.

(** The two acceleration hints the component writes. *)
Inductive Hint_ : Type := position_top | translateZ0.

Definition Hint_eqb (a b : Hint_) : bool :=
  match a, b with
  | position_top, position_top => true
  | translateZ0, translateZ0 => true
  | _, _ => false
  end.

(** [IPositionStyles]: every key is optional ([{}] is a value of the
    type); [willChange] is only ever ['position, top'] and [transform]
    only [translateZ(0)]. *)
Module IPositionStyles.
Record t : Type := mk {
  position : option Position;
  top : option number;
  willChange : option Hint_;
  transform : option Hint_
}.
Definition empty : t := mk None None None None.
End IPositionStyles.

(** ** StickyScrollUpProvider *)

Module StickyScrollUpProvider.

Record t : Type := mk { stickyOffset0 : StickyOffset.t }.

(** The field initialiser of the class. *)
Definition init : t := mk (StickyOffset.mk 0 0).

Definition set_top (v : number) (o : StickyOffset.t) : StickyOffset.t :=
  StickyOffset.mk v (StickyOffset.height o).
Definition set_height (v : number) (o : StickyOffset.t) : StickyOffset.t :=
  StickyOffset.mk (StickyOffset.top o) v.

(** [updateStickyOffset]: two assignments to the one offset object of
    the provider, in the order of the source. *)
Definition updateStickyOffset (stickyOffset height : number) (this : t)
  : t :=
  let o1 := set_top (Math_min stickyOffset height) (stickyOffset0 this) in
  let o2 := set_height height o1 in
  mk o2.

End StickyScrollUpProvider.

(** ** Sticky *)

(** A DOM element as far as the component looks at it: its identity and
    the identity of its parent ([null] when detached). *)
Record HTMLElement : Type := mkHTMLElement {
  el_id : nat;
  parentElement : option nat
}.

(** [React.RefObject]: [current] is [null] until the node is mounted. *)
Record RefObject : Type := mkRef { current : option HTMLElement }.

(** Module-level constants of [./utils] and the build environment. *)
Record Platform : Type := mkPlatform {
  supportsWillChange : bool;
  supportsPositionSticky : bool;
  (** [process.env.NODE_ENV === 'production'] *)
  production : bool
}.

Record Props : Type := mkProps {
  container : option RefObject;
  stickyOffset : StickyOffset.t;
  defaultOffsetTop : number;
  overflowScroll : OverflowScrollType;
  disableHardwareAcceleration : bool;
  experimentalNative : bool;
  disabled : bool;
  (** [typeof this.props.children === 'function'] *)
  childrenIsFunction : bool
}.

Record IState : Type := mkState {
  st_isSticky : bool;
  st_isDockedToBottom : bool;
  st_isNearToViewport : bool;
  st_appliedOverflowScroll : OverflowScrollType;
  st_styles : IPositionStyles.t;
  st_useNativeSticky : bool
}.

(** One mounted instance of the component. *)
Record Sticky : Type := mkSticky {
  props : Props;
  placeholderRef : RefObject;
  nativeStickyThrewOnce : bool;
  state : IState
}.

(** The text of the one warning the component prints. *)
Definition nativeStickyWarning : string :=
  "react-stickup: a sticky element was used with property `experimentalNative` but its `container` is not the parent the sticky component. As the native sticky implementation always uses its parent element as the container. This can lead to unexpected results. It is therefore recommended to change the DOM structure so that the container is a direct parent of the Sticky component or to remove the `experimentalNative` property."%string.

(** The defaults of [defaultProps] and the initial [state]. *)
Definition defaultProps : Props :=
  mkProps None (StickyOffset.mk 0 0) 0 end_ false false false false.

Definition initialState : IState :=
  mkState false false false end_ IPositionStyles.empty false.

Definition newSticky (p : Props) : Sticky :=
  mkSticky p (mkRef None) false initialState.

Definition offsetTop (this : Sticky) : number :=
  StickyOffset.top (stickyOffset (props this)) + defaultOffsetTop (props this).

Definition hasContainer (this : Sticky) : bool :=
  match container (props this) with
  | Some _ => true
  | None => false
  end.

Definition isNearToViewport (rect : option IRect.t) : bool :=
  let padding := 700 in
  lt (or_num (rect ?. IRect.top) 0 - padding) 0
  && gt (or_num (rect ?. IRect.bottom) 0 + padding) 0.

(** The guard [!dimensions] is kept: the callers pass the dimensions they
    were given. *)
Definition calcHeightDifference (rectSticky : option IRect.t)
    (dimensions : option IDimensions.t) : number :=
  match dimensions with
  | None => 0
  | Some d =>
      Math_max 0
        (Math_round (or_num (rectSticky ?. IRect.height) 0)
         - IDimensions.height d)
  end.

Definition getOverflowScrollType (this : Sticky)
    (rectSticky : option IRect.t) (dimensions : IDimensions.t)
  : OverflowScrollType :=
  if OverflowScrollType_eqb (overflowScroll (props this)) flow
     && gt (calcHeightDifference rectSticky (Some dimensions)) 0
  then flow
  else end_.

Definition isSticky (this : Sticky) (rect containerRect : option IRect.t)
    (dimensions : IDimensions.t) : bool :=
  if negb (hasContainer this) then
    le (Math_round (or_num (containerRect ?. IRect.top) 0)) (offsetTop this)
  else if gt (Math_round (or_num (containerRect ?. IRect.top) 0))
             (offsetTop this) then
    false
  else
    let height :=
      if OverflowScrollType_eqb (overflowScroll (props this)) flow
      then Math_min (or_num (rect ?. IRect.height) 0)
                    (IDimensions.height dimensions)
      else or_num (rect ?. IRect.height) 0 in
    if lt (Math_round (or_num (containerRect ?. IRect.bottom) 0)
           - offsetTop this) height
    then false
    else true.

(** The value of [placeholderRef && placeholderRef.current?.parentElement];
    a ref object is always truthy. *)
Definition placeholderParent (this : Sticky) : ref :=
  match current (placeholderRef this) with
  | None => undefined
  | Some el =>
      match parentElement el with
      | None => null
      | Some p => node p
      end
  end.

(** The value of [props.container && props.container.current]. *)
Definition containerElement (this : Sticky) : ref :=
  match container (props this) with
  | None => undefined
  | Some r =>
      match current r with
      | None => null
      | Some el => node (el_id el)
      end
  end.

(** [shouldUseNativeSticky]: the returned boolean, the instance after the
    call and the lines the call wrote to the console. *)
Definition shouldUseNativeSticky (env : Platform) (this : Sticky)
    (appliedOverflowScroll : OverflowScrollType)
  : bool * Sticky * list string :=
  if negb (experimentalNative (props this))
     || negb (supportsPositionSticky env)
     || negb (OverflowScrollType_eqb appliedOverflowScroll end_)
     || sne (StickyOffset.top (stickyOffset (props this))) 0
  then (false, this, [])
  else if negb (production env)
          && negb (nativeStickyThrewOnce this)
          && ref_sne (placeholderParent this) (containerElement this)
  then (true,
        mkSticky (props this) (placeholderRef this) true (state this),
        [nativeStickyWarning])
  else (true, this, []).

(** [isDockedToBottom]: the reads [rect.height], [containerRect.height]
    and [containerRect.bottom] are plain property accesses. *)
Definition isDockedToBottom (this : Sticky)
    (rect containerRect : option IRect.t) (dimensions : IDimensions.t)
  : result bool :=
  match rect, containerRect with
  | None, _ | _, None => Ok false
  | Some _, Some _ =>
      if negb (hasContainer this) then Ok false
      else
        rh <- prop rect IRect.height ;;
        ch <- prop containerRect IRect.height ;;
        if gt rh ch then Ok false
        else
          height <-
            (if OverflowScrollType_eqb (overflowScroll (props this)) flow
             then
               rh' <- prop rect IRect.height ;;
               Ok (Math_min rh' (IDimensions.height dimensions))
             else prop rect IRect.height) ;;
          cb <- prop containerRect IRect.bottom ;;
          if ge (Math_round cb - offsetTop this) height then Ok false
          else Ok true
  end.

(** The object literal [{ position: p, top: t }]. *)
Definition style (p : Position) (t : number) : IPositionStyles.t :=
  IPositionStyles.mk (Some p) (Some t) None None.

(** The [top] of the scroll-tracking branch of the flow algorithm, the
    expression [Math.abs(scrollY - stickyTop + (containerTop - scrollY))]. *)
Definition flowTrackingTop (scrollY stickyTop containerTop : number)
  : number :=
  Math_abs (scrollY - stickyTop + (containerTop - scrollY)).

Definition calcOverflowScrollFlowStickyStyles (this : Sticky)
    (rectSticky containerRect : option IRect.t) (scroll : IScroll.t)
    (dimensions : IDimensions.t) : result IPositionStyles.t :=
  ct <- prop containerRect IRect.top ;;
  let containerTop := Math_round ct in
  let stickyTop := Math_round (or_num (rectSticky ?. IRect.top) 0) in
  let scrollY := Math_round (IScroll.y scroll) in
  let scrollYTurn := Math_round (IScroll.yTurn scroll) in
  let heightDiff := calcHeightDifference rectSticky (Some dimensions) in
  let containerTopOffset :=
    containerTop + scrollY - StickyOffset.height (stickyOffset (props this)) in
  let isStickyBottomReached :=
    le (Math_round (or_num (rectSticky ?. IRect.bottom) 0))
       (IDimensions.height dimensions) in
  let isContainerTopReached := lt containerTop (offsetTop this) in
  let isTurnWithinHeightOffset :=
    le (scrollYTurn - heightDiff) containerTopOffset in
  let isTurnPointBeforeContainer := lt scrollYTurn containerTopOffset in
  ch <- prop containerRect IRect.height ;;
  let isTurnPointAfterContainer := gt scrollYTurn (containerTopOffset + ch) in
  let isTurnPointWithinContainer :=
    negb (isTurnPointBeforeContainer || isTurnPointAfterContainer) in
  if (IScroll.isScrollingDown scroll
      && negb isStickyBottomReached
      && negb isTurnPointWithinContainer)
     || (IScroll.isScrollingUp scroll && negb isContainerTopReached)
     || (IScroll.isScrollingUp scroll
         && isTurnWithinHeightOffset
         && negb isTurnPointWithinContainer)
  then Ok (style absolute 0)
  else if IScroll.isScrollingDown scroll && isStickyBottomReached
  then Ok (style fixed (- heightDiff))
  else
    let isStickyTopReached := ge stickyTop (offsetTop this) in
    if (IScroll.isScrollingDown scroll && isTurnPointWithinContainer)
       || (IScroll.isScrollingUp scroll
           && negb isTurnPointBeforeContainer
           && negb isStickyTopReached)
    then Ok (style absolute (flowTrackingTop scrollY stickyTop containerTop))
    else Ok (style fixed (offsetTop this)).

Definition calcPositionStyles (this : Sticky)
    (rectSticky containerRect : option IRect.t) (scroll : IScroll.t)
    (dimensions : IDimensions.t) : result IPositionStyles.t :=
  if isSticky this rectSticky containerRect dimensions then
    if OverflowScrollType_eqb
         (getOverflowScrollType this rectSticky dimensions) flow
    then
      calcOverflowScrollFlowStickyStyles this rectSticky containerRect
        scroll dimensions
    else
      let stickyOffset' := StickyOffset.top (stickyOffset (props this)) in
      let stickyHeight := StickyOffset.height (stickyOffset (props this)) in
      let headIsFlexible :=
        gt stickyOffset' 0 && lt stickyOffset' stickyHeight in
      if headIsFlexible then
        let r :=
          Math_round (IScroll.yTurn scroll - IScroll.y scroll
                      + IScroll.yDTurn scroll) in
        ct <- prop containerRect IRect.top ;;
        let relYTurn := r - Math_round ct in
        Ok (style absolute (relYTurn + offsetTop this))
      else Ok (style fixed (offsetTop this))
  else
    docked <- isDockedToBottom this rectSticky containerRect dimensions ;;
    if docked then
      ch <- prop containerRect IRect.height ;;
      Ok (style absolute (ch - or_num (rectSticky ?. IRect.height) 0))
    else Ok (style absolute 0).

Definition set_willChange (v : option Hint_) (s : IPositionStyles.t)
  : IPositionStyles.t :=
  IPositionStyles.mk (IPositionStyles.position s) (IPositionStyles.top s)
    v (IPositionStyles.transform s).

Definition set_transform (v : option Hint_) (s : IPositionStyles.t)
  : IPositionStyles.t :=
  IPositionStyles.mk (IPositionStyles.position s) (IPositionStyles.top s)
    (IPositionStyles.willChange s) v.

(** [getStickyStyles]: the hint is written into the object that
    [calcPositionStyles] has just built, which nothing else holds. *)
Definition getStickyStyles (env : Platform) (this : Sticky)
    (rect containerRect : option IRect.t) (scroll : IScroll.t)
    (dimensions : IDimensions.t) : result IPositionStyles.t :=
  styles <- calcPositionStyles this rect containerRect scroll dimensions ;;
  if negb (disableHardwareAcceleration (props this)) then
    let shouldAccelerate := isNearToViewport rect in
    if supportsWillChange env then
      Ok (set_willChange
            (if shouldAccelerate then Some position_top else None) styles)
    else
      Ok (set_transform
            (if shouldAccelerate then Some translateZ0 else None) styles)
  else Ok styles.

Definition option_eqb {A : Type} (eqb : A -> A -> bool) (a b : option A)
  : bool :=
  match a, b with
  | Some x, Some y => eqb x y
  | None, None => true
  | _, _ => false
  end.

(** Modelled from the spec: [shallowEqualPositionStyles] of [./utils] is
    not among the sources.  The spec asks for value equality of two
    styles on [position], [top] and the acceleration hint (the
    [willChange] and [transform] keys). *)
Definition shallowEqualPositionStyles (a b : IPositionStyles.t) : bool :=
  option_eqb Position_eqb (IPositionStyles.position a)
    (IPositionStyles.position b)
  && option_eqb Js.seq (IPositionStyles.top a) (IPositionStyles.top b)
  && option_eqb Hint_eqb (IPositionStyles.willChange a)
       (IPositionStyles.willChange b)
  && option_eqb Hint_eqb (IPositionStyles.transform a)
       (IPositionStyles.transform b).

Definition setState (s : IState) (this : Sticky) : Sticky :=
  mkSticky (props this) (placeholderRef this) (nativeStickyThrewOnce this) s.

(** [handleScrollUpdate], one update cycle: how the call ended, the
    instance it leaves behind and the lines it wrote to the console. *)
Definition handleScrollUpdate (env : Platform) (this : Sticky)
    (scroll : IScroll.t) (dimensions : IDimensions.t)
    (stickyRect containerRect : option IRect.t)
  : result unit * Sticky * list string :=
  if disabled (props this) then (Ok tt, this, [])
  else
    let willRenderAsAFunction := childrenIsFunction (props this) in
    let appliedOverflowScroll :=
      getOverflowScrollType this stickyRect dimensions in
    let '(useNativeSticky, this1, out) :=
      shouldUseNativeSticky env this appliedOverflowScroll in
    let computed :=
      styles <-
        (if useNativeSticky then Ok IPositionStyles.empty
         else getStickyStyles env this1 stickyRect containerRect scroll
                dimensions) ;;
      let stateStyles := st_styles (state this1) in
      let stylesDidChange :=
        negb (shallowEqualPositionStyles styles stateStyles) in
      let isSticky_ :=
        if willRenderAsAFunction
        then isSticky this1 stickyRect containerRect dimensions
        else false in
      isDockedToBottom_ <-
        (if willRenderAsAFunction
         then isDockedToBottom this1 stickyRect containerRect dimensions
         else Ok false) ;;
      let isNearToViewport_ := isNearToViewport stickyRect in
      let useNativeStickyDidChange :=
        negb (Bool.eqb (st_useNativeSticky (state this1)) useNativeSticky) in
      let isStickyDidChange :=
        negb (Bool.eqb (st_isSticky (state this1)) isSticky_) in
      let isDockedToBottomDidChange :=
        negb (Bool.eqb (st_isDockedToBottom (state this1))
                isDockedToBottom_) in
      let isNearToViewportDidChange :=
        negb (Bool.eqb (st_isNearToViewport (state this1))
                isNearToViewport_) in
      let appliedOverflowScrollDidChange :=
        negb (OverflowScrollType_eqb appliedOverflowScroll
                (st_appliedOverflowScroll (state this1))) in
      if negb useNativeStickyDidChange
         && negb stylesDidChange
         && negb isStickyDidChange
         && negb isDockedToBottomDidChange
         && negb isNearToViewportDidChange
         && negb appliedOverflowScrollDidChange
      then Ok this1
      else
        Ok (setState
              (mkState isSticky_ isDockedToBottom_ isNearToViewport_
                 appliedOverflowScroll
                 (if stylesDidChange then styles else stateStyles)
                 useNativeSticky)
              this1) in
    match computed with
    | Ok this2 => (Ok tt, this2, out)
    | TypeError => (TypeError, this1, out)
    end.

(** A call of [shouldUseNativeSticky] in the life of one instance.
    Between two calls React may hand the instance new props, rebind the
    placeholder ref and replace the state; the field
    [nativeStickyThrewOnce] is written by [shouldUseNativeSticky] only. *)
Record Call : Type := mkCall {
  c_props : Props;
  c_placeholderRef : RefObject;
  c_state : IState;
  c_appliedOverflowScroll : OverflowScrollType
}.

Definition rerender (c : Call) (this : Sticky) : Sticky :=
  mkSticky (c_props c) (c_placeholderRef c) (nativeStickyThrewOnce this)
    (c_state c).

(** The instance and the console output after a sequence of calls. *)
Fixpoint decisions (env : Platform) (this : Sticky) (calls : list Call)
  : Sticky * list string :=
  match calls with
  | [] => (this, [])
  | c :: cs =>
      let '(_, this1, out) :=
        shouldUseNativeSticky env (rerender c this)
          (c_appliedOverflowScroll c) in
      let '(this2, out') := decisions env this1 cs in
      (this2, out ++ out')
  end.

(** The rectangle an absent measurement stands for. *)
Definition zeroRect : IRect.t := IRect.mk 0 0 0.

Definition rectOrZero (r : option IRect.t) : IRect.t :=
  match r with
  | Some x => x
  | None => zeroRect
  end.

(** The tail of [handleScrollUpdate], from the six [...DidChange] tests
    to [setState], as a function of the values the cycle has computed.
    [handleScrollUpdate] is not defined through it; the two are proved to
    agree. *)
Definition commit (useNativeSticky : bool) (styles : IPositionStyles.t)
    (isSticky_ isDockedToBottom_ isNearToViewport_ : bool)
    (appliedOverflowScroll : OverflowScrollType) (this1 : Sticky) : Sticky :=
  let stateStyles := st_styles (state this1) in
  let stylesDidChange :=
    negb (shallowEqualPositionStyles styles stateStyles) in
  if negb (negb (Bool.eqb (st_useNativeSticky (state this1)) useNativeSticky))
     && negb stylesDidChange
     && negb (negb (Bool.eqb (st_isSticky (state this1)) isSticky_))
     && negb (negb (Bool.eqb (st_isDockedToBottom (state this1))
                      isDockedToBottom_))
     && negb (negb (Bool.eqb (st_isNearToViewport (state this1))
                      isNearToViewport_))
     && negb (negb (OverflowScrollType_eqb appliedOverflowScroll
                      (st_appliedOverflowScroll (state this1))))
  then this1
  else
    setState
      (mkState isSticky_ isDockedToBottom_ isNearToViewport_
         appliedOverflowScroll
         (if stylesDidChange then styles else stateStyles)
         useNativeSticky)
      this1.

(** The props [render] hands to [ObserveViewport]. *)
Inductive Priority : Type := highest | low.

Record ObserveViewportProps : Type := mkObserveViewportProps {
  disableScrollUpdates : bool;
  disableDimensionsUpdates : bool;
  priority : Priority
}.

Definition renderObserveViewport (this : Sticky) : ObserveViewportProps :=
  mkObserveViewportProps
    (disabled (props this))
    (disabled (props this)
     || negb (OverflowScrollType_eqb (overflowScroll (props this)) flow))
    (if st_isNearToViewport (state this) then highest else low).

(** A sequence of [updateStickyOffset] calls on one provider. *)
Fixpoint updates (calls : list (number * number))
    (this : StickyScrollUpProvider.t) : StickyScrollUpProvider.t :=
  match calls with
  | [] => this
  | (top, height) :: rest =>
      updates rest
        (StickyScrollUpProvider.updateStickyOffset top height this)
  end.


(** ** The earlier Sticky

    The first component of the sources: no overflow policy, no native
    sticky, no rounding of the rectangles, a proximity window of 300.
    It reads the props [container], [stickyOffset] and
    [defaultOffsetTop] of the instance. *)
Module Earlier.

Definition isNearToViewport (rect : option IRect.t) : result bool :=
  let padding := 300 in
  t <- prop rect IRect.top ;;
  if Js.lt (t - padding) 0 then
    b <- prop rect IRect.bottom ;;
    Ok (Js.gt (b + padding) 0)
  else Ok false.

Definition isSticky (this : Sticky) (rect containerRect : option IRect.t)
  : result bool :=
  if negb (hasContainer this) then
    ct <- prop containerRect IRect.top ;;
    Ok (Js.le ct (offsetTop this))
  else
    ct <- prop containerRect IRect.top ;;
    if Js.gt ct (offsetTop this) then Ok false
    else
      cb <- prop containerRect IRect.bottom ;;
      rh <- prop rect IRect.height ;;
      if Js.lt (cb - offsetTop this) rh then Ok false
      else Ok true.

Definition isDockedToBottom (this : Sticky)
    (rect containerRect : option IRect.t) : result bool :=
  match rect, containerRect with
  | None, _ | _, None => Ok false
  | Some _, Some _ =>
      if negb (hasContainer this) then Ok false
      else
        cb <- prop containerRect IRect.bottom ;;
        rh <- prop rect IRect.height ;;
        if Js.ge (cb - offsetTop this) rh then Ok false
        else Ok true
  end.

Definition calcPositionStyles (this : Sticky)
    (rectSticky containerRect : option IRect.t) (scroll : IScroll.t)
  : result IPositionStyles.t :=
  sticky <- isSticky this rectSticky containerRect ;;
  if sticky then
    let stickyOffset' :=
      Math_round (StickyOffset.top (stickyOffset (props this))) in
    let stickyHeight := StickyOffset.height (stickyOffset (props this)) in
    let headIsFlexible :=
      Js.gt stickyOffset' 0 && Js.lt stickyOffset' stickyHeight in
    if headIsFlexible then
      ct <- prop containerRect IRect.top ;;
      let relYTurn := IScroll.yTurn scroll - IScroll.y scroll - ct in
      Ok (style absolute (relYTurn + offsetTop this + IScroll.yDTurn scroll))
    else Ok (style fixed (offsetTop this))
  else
    docked <- isDockedToBottom this rectSticky containerRect ;;
    if docked then
      ch <- prop containerRect IRect.height ;;
      rh <- prop rectSticky IRect.height ;;
      Ok (style absolute (ch - rh))
    else Ok (style absolute 0).

End Earlier.

(** * Properties *)

(** ** Numbers *)

Lemma le_iff (x y : number) : Js.le x y = true <-> x <= y.
Proof. unfold Js.le. apply Qle_bool_iff. Qed.

Lemma lt_iff (x y : number) : Js.lt x y = true <-> x < y.
Proof.
  unfold Js.lt. rewrite negb_true_iff.
  split; intro H.
  - apply Qnot_le_lt. intro L. apply Qle_bool_iff in L. congruence.
  - destruct (Qle_bool y x) eqn:E; trivial.
    apply Qle_bool_iff in E. exfalso. apply (Qlt_not_le _ _ H E).
Qed.

Lemma lt_false_iff (x y : number) : Js.lt x y = false <-> y <= x.
Proof.
  unfold Js.lt. rewrite negb_false_iff. apply Qle_bool_iff.
Qed.

Lemma gt_iff (x y : number) : Js.gt x y = true <-> y < x.
Proof. unfold Js.gt. apply lt_iff. Qed.

Lemma ge_iff (x y : number) : Js.ge x y = true <-> y <= x.
Proof. unfold Js.ge. apply le_iff. Qed.

Lemma lt_true_ge_false (x y : number) : Js.lt x y = true <-> Js.ge x y = false.
Proof. unfold Js.lt, Js.ge, Js.le. apply negb_true_iff. Qed.

Lemma le_bool_false_iff (x y : number) : Qle_bool x y = false <-> y < x.
Proof.
  rewrite <- lt_iff. unfold Js.lt. rewrite negb_true_iff. reflexivity.
Qed.

Lemma or_num_some (v : number) : or_num (Some v) 0 == v.
Proof.
  unfold or_num, truthy.
  destruct (Qeq_bool v 0) eqn:E; simpl.
  - apply Qeq_bool_iff in E. symmetry. exact E.
  - reflexivity.
Qed.

Lemma Math_round_comp (x y : number) :
  x == y -> Math_round x = Math_round y.
Proof.
  intro H. unfold Math_round.
  assert (E : Qfloor (x + (1 # 2)) = Qfloor (y + (1 # 2))).
  { apply Qfloor_comp. rewrite H. reflexivity. }
  rewrite E. reflexivity.
Qed.

Lemma Math_round_or_num (v : number) :
  Math_round (or_num (Some v) 0) = Math_round v.
Proof. apply Math_round_comp, or_num_some. Qed.

Lemma Math_min_cases (x y : number) :
  Math_min x y = if Qle_bool x y then x else y.
Proof.
  unfold Math_min, Qmin, GenericMinMax.gmin.
  destruct (Qle_bool x y) eqn:E.
  - apply Qle_bool_iff in E.
    destruct (x ?= y) eqn:C; trivial.
    exfalso. apply Qgt_alt in C.
    apply (Qlt_not_le _ _ C E).
  - destruct (x ?= y) eqn:C; trivial.
    + apply Qeq_alt in C.
      assert (L : Qle_bool x y = true)
        by (apply Qle_bool_iff; rewrite C; apply Qle_refl).
      congruence.
    + apply Qlt_alt in C.
      assert (L : Qle_bool x y = true)
        by (apply Qle_bool_iff; apply Qlt_le_weak; exact C).
      congruence.
Qed.

Lemma Math_max_pos (d : number) : Js.gt (Math_max 0 d) 0 = Js.gt d 0.
Proof.
  unfold Math_max.
  destruct (Js.gt d 0) eqn:E.
  - apply gt_iff. apply gt_iff in E.
    apply Qlt_le_trans with d; [exact E | apply Q.le_max_r].
  - apply lt_false_iff. apply lt_false_iff in E.
    apply Q.max_lub; [apply Qle_refl | exact E].
Qed.

(** ** The offset coordinator *)

(** C1: [updateStickyOffset top height] leaves [height] in the height
    field and the smaller of [top] and [height] in the top field, so the
    top never exceeds the height; [update(30, 20)] gives [{20, 20}] and
    [update(5, 20)] gives [{5, 20}]. *)
Theorem updateStickyOffset_clamps :
  forall (top height : number) (this : StickyScrollUpProvider.t),
    let o :=
      StickyScrollUpProvider.stickyOffset0
        (StickyScrollUpProvider.updateStickyOffset top height this) in
    StickyOffset.height o = height
    /\ StickyOffset.top o = (if Qle_bool top height then top else height)
    /\ StickyOffset.top o <= StickyOffset.height o
    /\ StickyScrollUpProvider.updateStickyOffset 30 20 this
       = StickyScrollUpProvider.mk (StickyOffset.mk 20 20)
    /\ StickyScrollUpProvider.updateStickyOffset 5 20 this
       = StickyScrollUpProvider.mk (StickyOffset.mk 5 20).
Proof.
  intros top height this o. subst o. cbn.
  rewrite Math_min_cases.
  repeat split.
  destruct (Qle_bool top height) eqn:E.
  - apply Qle_bool_iff. exact E.
  - apply Qle_refl.
Qed.

(** ** The sticky predicate *)

Lemma isSticky_rounded_top (this : Sticky) (rect containerRect : option IRect.t)
    (dimensions : IDimensions.t) :
  offsetTop this < Math_round (or_num (containerRect ?. IRect.top) 0) ->
  isSticky this rect containerRect dimensions = false.
Proof.
  intro H. unfold isSticky.
  destruct (hasContainer this); cbn [negb].
  - apply gt_iff in H. rewrite H. reflexivity.
  - destruct (Js.le _ _) eqn:E; trivial.
    apply le_iff in E. exfalso. apply (Qlt_not_le _ _ H E).
Qed.

(** C2, as stated, fails: a container top of 10.4 is strictly greater
    than an offset of 10, yet the component compares the rounded top, 10,
    and reports sticky. *)
Lemma isSticky_fractional_top_counterexample :
  let this :=
    newSticky (mkProps None (StickyOffset.mk 0 0) 10 end_
                 false false false false) in
  let containerRect := IRect.mk (52 # 5) 500 (2448 # 5) in
  offsetTop this < IRect.top containerRect
  /\ isSticky this (Some (IRect.mk (52 # 5) (302 # 5) 50))
       (Some containerRect) (IDimensions.mk 800) = true.
Proof. split; reflexivity. Qed.

(** C2, amended: whenever the rounded top of the container rectangle is
    strictly greater than [offsetTop], [isSticky] is false, whatever the
    overflow policy and with or without a container. *)
Theorem isSticky_false_above_offset :
  forall (this : Sticky) (rect : option IRect.t) (containerRect : IRect.t)
         (dimensions : IDimensions.t),
    offsetTop this < Math_round (IRect.top containerRect) ->
    isSticky this rect (Some containerRect) dimensions = false.
Proof.
  intros this rect c dimensions H.
  apply isSticky_rounded_top. cbn [Js.chain].
  rewrite Math_round_or_num. exact H.
Qed.

Lemma isSticky_false_above_offset_witness :
  isSticky
    (newSticky (mkProps (Some (mkRef None)) (StickyOffset.mk 0 0) 10 flow
                  false false false false))
    None (Some (IRect.mk (21 # 2) 500 (979 # 2))) (IDimensions.mk 800)
  = false.
Proof.
  apply isSticky_false_above_offset. vm_compute. reflexivity.
Defined.

(** ** The applied overflow mode *)

Lemma getOverflowScrollType_spec (this : Sticky) (rectSticky : option IRect.t)
    (dimensions : IDimensions.t) :
  getOverflowScrollType this rectSticky dimensions
  = if OverflowScrollType_eqb (overflowScroll (props this)) flow
       && Js.lt (IDimensions.height dimensions)
            (Math_round (or_num (rectSticky ?. IRect.height) 0))
    then flow else end_.
Proof.
  unfold getOverflowScrollType, calcHeightDifference.
  rewrite Math_max_pos.
  set (r := Math_round _). set (h := IDimensions.height dimensions).
  assert (E : Js.gt (r - h) 0 = Js.lt h r).
  { destruct (Js.lt h r) eqn:L.
    - apply gt_iff. apply lt_iff in L. lra.
    - apply lt_false_iff. apply lt_false_iff in L. lra. }
  rewrite E. reflexivity.
Qed.

(** C3, as stated, fails: under the flow policy an element of height
    100.4 is taller than a viewport of height 100, yet the applied mode
    is [end], because the height is rounded before the comparison. *)
Lemma getOverflowScrollType_fractional_counterexample :
  let this :=
    newSticky (mkProps None (StickyOffset.mk 0 0) 0 flow
                 false false false false) in
  let stickyRect := IRect.mk 0 (502 # 5) (502 # 5) in
  let dimensions := IDimensions.mk 100 in
  overflowScroll (props this) = flow
  /\ IDimensions.height dimensions < IRect.height stickyRect
  /\ getOverflowScrollType this (Some stickyRect) dimensions = end_.
Proof. repeat split. Qed.

(** C3, amended: the applied overflow mode is [flow] if and only if the
    policy is [flow] and the rounded height of the sticky rectangle is
    greater than the viewport height; in every other case it is [end].
    An absent rectangle counts with height 0. *)
Theorem getOverflowScrollType_flow_iff :
  forall (this : Sticky) (rectSticky : option IRect.t)
         (dimensions : IDimensions.t),
    let h := Math_round (IRect.height (rectOrZero rectSticky)) in
    (getOverflowScrollType this rectSticky dimensions = flow
     <-> overflowScroll (props this) = flow
         /\ IDimensions.height dimensions < h)
    /\ (getOverflowScrollType this rectSticky dimensions = end_
        <-> ~ (overflowScroll (props this) = flow
               /\ IDimensions.height dimensions < h)).
Proof.
  intros this rectSticky dimensions h.
  rewrite getOverflowScrollType_spec.
  assert (R : Math_round (or_num (rectSticky ?. IRect.height) 0) = h).
  { subst h. destruct rectSticky as [r | ]; cbn [Js.chain rectOrZero].
    - apply Math_round_or_num.
    - reflexivity. }
  rewrite R.
  destruct (overflowScroll (props this)); cbn [OverflowScrollType_eqb andb].
  - destruct (Js.lt (IDimensions.height dimensions) h) eqn:L.
    + apply lt_iff in L. intuition congruence.
    + apply lt_false_iff in L.
      assert (N : ~ IDimensions.height dimensions < h)
        by (apply Qle_not_lt; exact L).
      intuition congruence.
  - intuition congruence.
Qed.

(** ** The native-sticky decision *)

(** The four conditions as one boolean. *)
Lemma shouldUseNativeSticky_value (env : Platform) (this : Sticky)
    (appliedOverflowScroll : OverflowScrollType) :
  fst (fst (shouldUseNativeSticky env this appliedOverflowScroll))
  = experimentalNative (props this)
    && supportsPositionSticky env
    && OverflowScrollType_eqb appliedOverflowScroll end_
    && Js.seq (StickyOffset.top (stickyOffset (props this))) 0.
Proof.
  unfold shouldUseNativeSticky, Js.sne, Js.seq.
  destruct (experimentalNative (props this)),
           (supportsPositionSticky env),
           (OverflowScrollType_eqb appliedOverflowScroll end_),
           (Qeq_bool (StickyOffset.top (stickyOffset (props this))) 0);
    cbn [negb orb andb fst]; trivial.
  destruct (negb (production env) && negb (nativeStickyThrewOnce this)
            && ref_sne (placeholderParent this) (containerElement this));
    reflexivity.
Qed.

(** C4: [shouldUseNativeSticky] returns true exactly when the opt-in is
    set, the platform supports [position: sticky], the applied overflow
    mode is [end] and the top of the group offset is zero.  The returned
    value is a function of these four facts alone: the placeholder, its
    parent, the element of the container, the warning flag and the build
    mode do not enter it. *)
Theorem shouldUseNativeSticky_iff :
  forall (env : Platform) (this : Sticky)
         (appliedOverflowScroll : OverflowScrollType),
    let r := fst (fst (shouldUseNativeSticky env this appliedOverflowScroll)) in
    (r = true
     <-> experimentalNative (props this) = true
         /\ supportsPositionSticky env = true
         /\ appliedOverflowScroll = end_
         /\ StickyOffset.top (stickyOffset (props this)) == 0)
    /\ r = experimentalNative (props this)
           && supportsPositionSticky env
           && OverflowScrollType_eqb appliedOverflowScroll end_
           && Js.seq (StickyOffset.top (stickyOffset (props this))) 0.
Proof.
  intros env this applied r. subst r.
  rewrite shouldUseNativeSticky_value.
  split; [ | reflexivity ].
  rewrite !andb_true_iff. unfold Js.seq. rewrite Qeq_bool_iff.
  destruct applied; cbn [OverflowScrollType_eqb]; intuition congruence.
Qed.

(** A call made with the flag already set prints nothing and keeps the
    flag. *)
Lemma shouldUseNativeSticky_silent (env : Platform) (this : Sticky)
    (applied : OverflowScrollType) :
  nativeStickyThrewOnce this = true ->
  snd (shouldUseNativeSticky env this applied) = []
  /\ nativeStickyThrewOnce (snd (fst (shouldUseNativeSticky env this applied)))
     = true.
Proof.
  intro F. unfold shouldUseNativeSticky. rewrite F.
  rewrite andb_false_r. cbn [andb].
  destruct (_ || _); cbn [fst snd]; auto.
Qed.

(** A call prints at most one line, and sets the flag if it prints. *)
Lemma shouldUseNativeSticky_once (env : Platform) (this : Sticky)
    (applied : OverflowScrollType) :
  snd (shouldUseNativeSticky env this applied) = []
  \/ (snd (shouldUseNativeSticky env this applied) = [nativeStickyWarning]
      /\ nativeStickyThrewOnce
           (snd (fst (shouldUseNativeSticky env this applied))) = true).
Proof.
  unfold shouldUseNativeSticky.
  destruct (_ || _); cbn [fst snd]; auto.
  destruct (_ && _); cbn [fst snd]; auto.
Qed.

Lemma rerender_flag (c : Call) (this : Sticky) :
  nativeStickyThrewOnce (rerender c this) = nativeStickyThrewOnce this.
Proof. reflexivity. Qed.

Lemma decisions_cons (env : Platform) (this : Sticky) (c : Call)
    (cs : list Call) :
  decisions env this (c :: cs)
  = let step :=
      shouldUseNativeSticky env (rerender c this)
        (c_appliedOverflowScroll c) in
    (fst (decisions env (snd (fst step)) cs),
     snd step ++ snd (decisions env (snd (fst step)) cs)).
Proof.
  cbn [decisions].
  destruct (shouldUseNativeSticky _ _ _) as [[b this1] out].
  cbn [fst snd]. destruct (decisions env this1 cs). reflexivity.
Qed.

(** Once the flag is set, no later sequence of calls prints. *)
Lemma decisions_silent (env : Platform) (calls : list Call) :
  forall this,
    nativeStickyThrewOnce this = true ->
    snd (decisions env this calls) = []
    /\ nativeStickyThrewOnce (fst (decisions env this calls)) = true.
Proof.
  induction calls as [ | c cs IH]; intros this F.
  - cbn. auto.
  - rewrite decisions_cons. cbv zeta. cbn [fst snd].
    destruct (shouldUseNativeSticky_silent env (rerender c this)
                (c_appliedOverflowScroll c)) as [E1 E2].
    { rewrite rerender_flag. exact F. }
    rewrite E1. cbn [app]. apply IH. exact E2.
Qed.

(** The flag is set whenever the console output is not empty. *)
Lemma decisions_flag (env : Platform) (calls : list Call) :
  forall this,
    snd (decisions env this calls) <> [] ->
    nativeStickyThrewOnce (fst (decisions env this calls)) = true.
Proof.
  induction calls as [ | c cs IH]; intros this N.
  - cbn in N. congruence.
  - rewrite decisions_cons in *. cbv zeta in *. cbn [fst snd] in *.
    destruct (shouldUseNativeSticky_once env (rerender c this)
                (c_appliedOverflowScroll c)) as [E | [E F]].
    + rewrite E in N. cbn [app] in N. apply IH. exact N.
    + apply decisions_silent. exact F.
Qed.

(** C8: over every sequence of calls of [shouldUseNativeSticky] on one
    instance, whatever props, refs and state the instance is given in
    between, the warning is printed at most once; and once a prefix of
    the sequence has printed it, the rest of the sequence prints
    nothing. *)
Theorem nativeStickyWarning_at_most_once :
  forall (env : Platform) (this : Sticky) (before after : list Call),
    (List.length (snd (decisions env this (before ++ after))) <= 1)%nat
    /\ (snd (decisions env this before) <> [] ->
        snd (decisions env (fst (decisions env this before)) after) = []).
Proof.
  intros env this before after. split.
  - generalize (before ++ after) as calls. clear before after.
    intro calls. revert this.
    induction calls as [ | c cs IH]; intro this.
    + cbn. lia.
    + rewrite decisions_cons. cbv zeta. cbn [fst snd].
      destruct (shouldUseNativeSticky_once env (rerender c this)
                  (c_appliedOverflowScroll c)) as [E | [E F]].
      * rewrite E. cbn [app]. apply IH.
      * rewrite E.
        destruct (decisions_silent env cs _ F) as [S _].
        rewrite S. cbn. lia.
  - intro N. apply decisions_silent. apply decisions_flag. exact N.
Qed.

Lemma nativeStickyWarning_at_most_once_witness :
  let env := mkPlatform true true false in
  let p :=
    mkProps None (StickyOffset.mk 0 0) 0 end_ false true false false in
  let c := mkCall p (mkRef (Some (mkHTMLElement 1 (Some 0%nat)))) initialState
             end_ in
  snd (decisions env (newSticky p) [c]) = [nativeStickyWarning]
  /\ snd (decisions env (fst (decisions env (newSticky p) [c])) [c; c]) = [].
Proof.
  cbv zeta. split; [reflexivity | ].
  refine (proj2 (nativeStickyWarning_at_most_once _ _ [_] [_; _]) _).
  intro H. vm_compute in H. discriminate H.
Defined.

(** ** The pinned style *)

(** C5, as stated, fails twice.  First input: the group offset is
    [{top: 0, height: 10}] and [defaultOffsetTop] is 5, so
    [0 < offsetTop < groupOffset.height], yet the style is [fixed]: the
    test reads the top of the group offset, not [offsetTop].  Second
    input: the scroll term is 0.4 and the claimed top is 5.4, yet the
    style has top 5: the scroll term is rounded. *)
Lemma calcPositionStyles_partial_header_counterexample :
  let dimensions := IDimensions.mk 800 in
  let stickyRect := Some (IRect.mk 0 50 50) in
  let containerRect := IRect.mk 0 100 100 in
  let this1 :=
    newSticky (mkProps None (StickyOffset.mk 0 10) 5 end_
                 false false false false) in
  let scroll1 := IScroll.mk 0 0 0 false false in
  let this2 :=
    newSticky (mkProps None (StickyOffset.mk 5 10) 0 end_
                 false false false false) in
  let scroll2 := IScroll.mk 0 (2 # 5) 0 false false in
  (isSticky this1 stickyRect (Some containerRect) dimensions = true
   /\ getOverflowScrollType this1 stickyRect dimensions = end_
   /\ 0 < offsetTop this1
   /\ offsetTop this1
      < StickyOffset.height (stickyOffset (props this1))
   /\ calcPositionStyles this1 stickyRect (Some containerRect) scroll1
        dimensions
      = Ok (style fixed 5))
  /\ (isSticky this2 stickyRect (Some containerRect) dimensions = true
      /\ getOverflowScrollType this2 stickyRect dimensions = end_
      /\ 0 < offsetTop this2
      /\ offsetTop this2
         < StickyOffset.height (stickyOffset (props this2))
      /\ IScroll.yTurn scroll2 - IScroll.y scroll2 + IScroll.yDTurn scroll2
         - Math_round (IRect.top containerRect) + offsetTop this2
         == 27 # 5
      /\ exists t,
           calcPositionStyles this2 stickyRect (Some containerRect) scroll2
             dimensions
           = Ok (style absolute t)
           /\ t == 5).
Proof.
  cbv zeta. split.
  - repeat split.
  - split; [reflexivity | ]. split; [reflexivity | ].
    split; [reflexivity | ]. split; [reflexivity | ].
    split; [reflexivity | ].
    eexists. split; [reflexivity | reflexivity].
Qed.

(** C5, amended: when the element is sticky, the applied overflow mode
    is not [flow] and the container rectangle is measured, the style is
    [absolute] with top
    [round(yTurn - y + yDTurn) - round(containerRect.top) + offsetTop]
    if [0 < groupOffset.top < groupOffset.height], and [fixed] with top
    [offsetTop] otherwise. *)
Theorem calcPositionStyles_sticky_not_flow :
  forall (this : Sticky) (rectSticky : option IRect.t)
         (containerRect : IRect.t) (scroll : IScroll.t)
         (dimensions : IDimensions.t),
    isSticky this rectSticky (Some containerRect) dimensions = true ->
    getOverflowScrollType this rectSticky dimensions <> flow ->
    let groupOffset := stickyOffset (props this) in
    (0 < StickyOffset.top groupOffset
     /\ StickyOffset.top groupOffset < StickyOffset.height groupOffset ->
     calcPositionStyles this rectSticky (Some containerRect) scroll dimensions
     = Ok (style absolute
             (Math_round (IScroll.yTurn scroll - IScroll.y scroll
                          + IScroll.yDTurn scroll)
              - Math_round (IRect.top containerRect)
              + offsetTop this)))
    /\ (~ (0 < StickyOffset.top groupOffset
           /\ StickyOffset.top groupOffset < StickyOffset.height groupOffset)
        -> calcPositionStyles this rectSticky (Some containerRect) scroll
             dimensions
           = Ok (style fixed (offsetTop this))).
Proof.
  intros this rectSticky c scroll dimensions S F groupOffset.
  subst groupOffset. unfold calcPositionStyles. rewrite S.
  destruct (getOverflowScrollType this rectSticky dimensions);
    [ congruence | ].
  cbn [OverflowScrollType_eqb].
  split.
  - intros [P L].
    apply gt_iff in P. apply lt_iff in L. rewrite P, L.
    reflexivity.
  - intro N.
    destruct (Js.gt (StickyOffset.top (stickyOffset (props this))) 0) eqn:P;
      cbn [andb]; trivial.
    destruct (Js.lt (StickyOffset.top (stickyOffset (props this)))
                (StickyOffset.height (stickyOffset (props this)))) eqn:L;
      trivial.
    exfalso. apply N. split; [apply gt_iff | apply lt_iff]; assumption.
Qed.

Lemma calcPositionStyles_sticky_not_flow_witness :
  calcPositionStyles
    (newSticky (mkProps None (StickyOffset.mk 5 10) 3 end_
                  false false false false))
    (Some (IRect.mk 0 50 50)) (Some (IRect.mk (-4) 96 100))
    (IScroll.mk 120 (581 # 5) 2 true false) (IDimensions.mk 800)
  = Ok (style absolute
          (Math_round ((581 # 5) - 120 + 2) - Math_round (-4) + (5 + 3))).
Proof.
  refine (proj1 (calcPositionStyles_sticky_not_flow
                   (newSticky (mkProps None (StickyOffset.mk 5 10) 3 end_
                                 false false false false))
                   (Some (IRect.mk 0 50 50)) (IRect.mk (-4) 96 100)
                   (IScroll.mk 120 (581 # 5) 2 true false)
                   (IDimensions.mk 800) _ _) _).
  - reflexivity.
  - vm_compute. discriminate.
  - split; reflexivity.
Defined.

(** ** Unmeasured rectangles *)

(** [isDockedToBottom] never raises: its plain property reads come after
    the guard on both rectangles. *)
Lemma isDockedToBottom_total (this : Sticky)
    (rect containerRect : option IRect.t) (dimensions : IDimensions.t) :
  exists b, isDockedToBottom this rect containerRect dimensions = Ok b.
Proof.
  unfold isDockedToBottom.
  destruct rect as [r | ], containerRect as [c | ];
    try (exists false; reflexivity).
  destruct (negb (hasContainer this)); [exists false; reflexivity | ].
  cbn [Js.prop Js.bind].
  destruct (Js.gt _ _); [exists false; reflexivity | ].
  destruct (OverflowScrollType_eqb _ _); cbn [Js.prop Js.bind];
    destruct (Js.ge _ _); eexists; reflexivity.
Qed.

(** C6, as stated, fails: on unmeasured rectangles the predicates do
    not all answer false.  [isNearToViewport] is true on an absent
    rectangle (the zero rectangle lies inside the proximity window), and
    with the default props [isSticky] is true when both rectangles are
    absent, with or without a container ([round(0) <= offsetTop = 0]
    and a zero height always fits). *)
Lemma absent_rects_not_false_counterexample :
  let dimensions := IDimensions.mk 800 in
  let withContainer :=
    newSticky (mkProps (Some (mkRef None)) (StickyOffset.mk 0 0) 0 end_
                 false false false false) in
  isNearToViewport None = true
  /\ isSticky (newSticky defaultProps) None None dimensions = true
  /\ isSticky withContainer None None dimensions = true.
Proof. cbv zeta. repeat split. Qed.

(** C6, amended: when the sticky rectangle or the container rectangle
    is absent, none of the three predicates raises.  [isDockedToBottom]
    answers false.  [isSticky] and [isNearToViewport] treat the absent
    rectangle as the zero rectangle and answer what they answer on it,
    which need not be false. *)
Theorem predicates_accept_absent_rects :
  forall (this : Sticky) (rect containerRect : option IRect.t)
         (dimensions : IDimensions.t),
    rect = None \/ containerRect = None ->
    isDockedToBottom this rect containerRect dimensions = Ok false
    /\ isSticky this rect containerRect dimensions
       = isSticky this (Some (rectOrZero rect))
           (Some (rectOrZero containerRect)) dimensions
    /\ isNearToViewport rect = isNearToViewport (Some (rectOrZero rect))
    /\ isNearToViewport containerRect
       = isNearToViewport (Some (rectOrZero containerRect)).
Proof.
  intros this rect containerRect dimensions H.
  split.
  - unfold isDockedToBottom.
    destruct H as [H | H]; subst; [ reflexivity | ].
    destruct rect; reflexivity.
  - destruct rect as [r | ], containerRect as [c | ];
      repeat split; reflexivity.
Qed.

Lemma predicates_accept_absent_rects_witness :
  isDockedToBottom
    (newSticky (mkProps (Some (mkRef None)) (StickyOffset.mk 0 0) 20 end_
                  false false false false))
    None (Some (IRect.mk 10 500 490)) (IDimensions.mk 800)
  = Ok false.
Proof.
  refine (proj1 (predicates_accept_absent_rects _ None _ _ _)).
  left. reflexivity.
Defined.

(** ** Sticky and docked exclude each other *)

Lemma isSticky_not_docked (this : Sticky)
    (rect containerRect : option IRect.t) (dimensions : IDimensions.t) :
  isSticky this rect containerRect dimensions = true ->
  isDockedToBottom this rect containerRect dimensions = Ok true ->
  False.
Proof.
  intros S D.
  unfold isDockedToBottom in D.
  destruct rect as [r | ], containerRect as [c | ]; try discriminate.
  unfold isSticky in S.
  destruct (hasContainer this); cbn [negb] in S, D; [ | discriminate ].
  cbn [Js.prop Js.bind Js.chain] in S, D.
  destruct (Js.gt (Math_round _) _); [discriminate | ].
  destruct (Js.gt (IRect.height r) (IRect.height c)); [discriminate | ].
  rewrite Math_round_or_num in S.
  pose proof (or_num_some (IRect.height r)) as Hh.
  set (a := or_num (Some (IRect.height r)) 0) in *.
  set (lhs := Math_round (IRect.bottom c) - offsetTop this) in *.
  destruct (OverflowScrollType_eqb (overflowScroll (props this)) flow);
    cbn [Js.prop Js.bind] in D.
  - rewrite Math_min_cases in S, D.
    destruct (Js.lt lhs _) eqn:L1 in S; [discriminate | ].
    destruct (Js.ge lhs _) eqn:L2 in D; [discriminate | ].
    apply lt_false_iff in L1.
    rewrite <- lt_true_ge_false in L2. apply lt_iff in L2.
    destruct (Qle_bool a (IDimensions.height dimensions)) eqn:E1;
      destruct (Qle_bool (IRect.height r) (IDimensions.height dimensions))
        eqn:E2;
      try apply Qle_bool_iff in E1; try apply Qle_bool_iff in E2;
      try (apply le_bool_false_iff in E1);
      try (apply le_bool_false_iff in E2);
      lra.
  - destruct (Js.lt lhs a) eqn:L1; [discriminate | ].
    destruct (Js.ge lhs (IRect.height r)) eqn:L2; [discriminate | ].
    apply lt_false_iff in L1.
    rewrite <- lt_true_ge_false in L2. apply lt_iff in L2.
    lra.
Qed.

(** C9: [isSticky] and [isDockedToBottom] are never both true on the
    same inputs: [isDockedToBottom] returns a boolean, and its
    conjunction with the value of [isSticky] is false. *)
Theorem isSticky_isDockedToBottom_exclusive :
  forall (this : Sticky) (rect containerRect : option IRect.t)
         (dimensions : IDimensions.t),
    exists docked : bool,
      isDockedToBottom this rect containerRect dimensions = Ok docked
      /\ isSticky this rect containerRect dimensions && docked = false.
Proof.
  intros this rect containerRect dimensions.
  destruct (isDockedToBottom_total this rect containerRect dimensions)
    as [docked D].
  exists docked. split; [exact D | ].
  destruct docked; [ | apply andb_false_r].
  destruct (isSticky this rect containerRect dimensions) eqn:S; trivial.
  exfalso. exact (isSticky_not_docked _ _ _ _ S D).
Qed.

(** ** Reproducibility of the style *)

Lemma option_eqb_refl {A : Type} (eqb : A -> A -> bool) :
  (forall a, eqb a a = true) -> forall o, option_eqb eqb o o = true.
Proof. intros R [a | ]; cbn; auto. Qed.

Lemma shallowEqualPositionStyles_refl (s : IPositionStyles.t) :
  shallowEqualPositionStyles s s = true.
Proof.
  unfold shallowEqualPositionStyles.
  rewrite !option_eqb_refl; trivial.
  - intros []; reflexivity.
  - intros []; reflexivity.
  - intro a. apply Qeq_bool_iff. reflexivity.
  - intros []; reflexivity.
Qed.

(** The style is computed from the props of the instance; its state,
    its warning flag and its placeholder ref are not read. *)
Lemma getStickyStyles_props (env : Platform) (this1 this2 : Sticky)
    (rect containerRect : option IRect.t) (scroll : IScroll.t)
    (dimensions : IDimensions.t) :
  props this1 = props this2 ->
  getStickyStyles env this1 rect containerRect scroll dimensions
  = getStickyStyles env this2 rect containerRect scroll dimensions.
Proof.
  destruct this1 as [p1 r1 f1 s1], this2 as [p2 r2 f2 s2].
  cbn [props]. intros <-. reflexivity.
Qed.

Lemma shouldUseNativeSticky_props (env : Platform) (this : Sticky)
    (applied : OverflowScrollType) :
  props (snd (fst (shouldUseNativeSticky env this applied))) = props this.
Proof.
  unfold shouldUseNativeSticky.
  destruct (_ || _); cbn [fst snd]; trivial.
  destruct (_ && _); reflexivity.
Qed.

(** An update cycle changes the state and the flag, never the props. *)
Lemma handleScrollUpdate_props (env : Platform) (this : Sticky)
    (scroll : IScroll.t) (dimensions : IDimensions.t)
    (stickyRect containerRect : option IRect.t) :
  props (snd (fst (handleScrollUpdate env this scroll dimensions stickyRect
                     containerRect)))
  = props this.
Proof.
  unfold handleScrollUpdate.
  destruct (disabled (props this)); [reflexivity | ].
  pose proof (shouldUseNativeSticky_props env this
                (getOverflowScrollType this stickyRect dimensions)) as P.
  destruct (shouldUseNativeSticky env this _) as [[u this1] out].
  cbn [fst snd] in P.
  destruct u.
  - cbn [Js.bind].
    destruct (if childrenIsFunction (props this) then _ else _);
      cbn [Js.bind fst snd]; trivial.
    destruct (_ && _); cbn [fst snd]; exact P.
  - destruct (getStickyStyles env this1 stickyRect containerRect scroll
                dimensions); cbn [Js.bind fst snd]; trivial.
    destruct (if childrenIsFunction (props this) then _ else _);
      cbn [Js.bind fst snd]; trivial.
    destruct (_ && _); cbn [fst snd]; exact P.
Qed.

(** C7: the style derivation is reproducible.  Two instances with the
    same props (configuration and group offset) give, on the same
    rectangles, scroll state and dimensions, the same outcome, and two
    styles that [shallowEqualPositionStyles] accepts as equal on
    [position], [top] and the acceleration hint; in particular the style
    computed after any update cycle of the instance is the style computed
    before it. *)
Theorem getStickyStyles_reproducible :
  forall (env : Platform) (this1 this2 : Sticky)
         (rect containerRect : option IRect.t) (scroll : IScroll.t)
         (dimensions : IDimensions.t),
    props this1 = props this2 ->
    match getStickyStyles env this1 rect containerRect scroll dimensions,
          getStickyStyles env this2 rect containerRect scroll dimensions
    with
    | Ok s1, Ok s2 =>
        shallowEqualPositionStyles s1 s2 = true
        /\ IPositionStyles.position s1 = IPositionStyles.position s2
        /\ IPositionStyles.top s1 = IPositionStyles.top s2
        /\ IPositionStyles.willChange s1 = IPositionStyles.willChange s2
        /\ IPositionStyles.transform s1 = IPositionStyles.transform s2
    | TypeError, TypeError => True
    | _, _ => False
    end
    /\ forall (scroll' : IScroll.t) (dimensions' : IDimensions.t)
              (stickyRect' containerRect' : option IRect.t),
         getStickyStyles env
           (snd (fst (handleScrollUpdate env this1 scroll' dimensions'
                        stickyRect' containerRect')))
           rect containerRect scroll dimensions
         = getStickyStyles env this1 rect containerRect scroll dimensions.
Proof.
  intros env this1 this2 rect containerRect scroll dimensions H.
  split.
  - rewrite (getStickyStyles_props env this1 this2 _ _ _ _ H).
    destruct (getStickyStyles env this2 rect containerRect scroll dimensions);
      trivial.
    split; [apply shallowEqualPositionStyles_refl | repeat split].
  - intros. apply getStickyStyles_props. apply handleScrollUpdate_props.
Qed.

Lemma getStickyStyles_reproducible_witness :
  let env := mkPlatform true true false in
  let p :=
    mkProps (Some (mkRef None)) (StickyOffset.mk 0 0) 20 end_
      false false false true in
  let rect := Some (IRect.mk 20 70 50) in
  let containerRect := Some (IRect.mk 10 500 490) in
  let scroll := IScroll.mk 30 0 0 false true in
  let dimensions := IDimensions.mk 800 in
  getStickyStyles env
    (snd (fst (handleScrollUpdate env (newSticky p) scroll dimensions rect
                 containerRect)))
    rect containerRect scroll dimensions
  = getStickyStyles env (newSticky p) rect containerRect scroll dimensions.
Proof.
  cbv zeta.
  refine (proj2 (getStickyStyles_reproducible _ (newSticky _) (newSticky _)
                   _ _ _ _ eq_refl) _ _ _ _).
Defined.

(** ** The flow algorithm *)

(** With a measured container the flow algorithm does not raise and
    returns one of its four styles. *)
Lemma calcOverflowScrollFlowStickyStyles_cases (this : Sticky)
    (rectSticky : option IRect.t) (containerRect : IRect.t)
    (scroll : IScroll.t) (dimensions : IDimensions.t) :
  let r :=
    calcOverflowScrollFlowStickyStyles this rectSticky (Some containerRect)
      scroll dimensions in
  r = Ok (style absolute 0)
  \/ r = Ok (style fixed
               (- calcHeightDifference rectSticky (Some dimensions)))
  \/ r = Ok (style absolute
               (flowTrackingTop (Math_round (IScroll.y scroll))
                  (Math_round (or_num (rectSticky ?. IRect.top) 0))
                  (Math_round (IRect.top containerRect))))
  \/ r = Ok (style fixed (offsetTop this)).
Proof.
  unfold calcOverflowScrollFlowStickyStyles. cbn [Js.prop Js.bind].
  cbv zeta.
  destruct (_ || _); [auto | ].
  destruct (IScroll.isScrollingDown scroll && _); [auto | ].
  destruct (_ || _); auto.
Qed.

(** C10: in the scroll-tracking branch of the flow algorithm the top
    [|scrollY - stickyTop + (containerTop - scrollY)|] equals
    [|containerTop - stickyTop|] for every [scrollY]: the scroll offset
    cancels, so the top of that branch is a function of the rounded
    container top and the rounded sticky top alone.  The branch is the
    third of the four outcomes of the algorithm. *)
Theorem flowTrackingTop_scroll_cancels :
  forall (this : Sticky) (rectSticky : option IRect.t)
         (containerRect : IRect.t) (scroll : IScroll.t)
         (dimensions : IDimensions.t) (scrollY : number),
    let stickyTop := Math_round (IRect.top (rectOrZero rectSticky)) in
    let containerTop := Math_round (IRect.top containerRect) in
    let r :=
      calcOverflowScrollFlowStickyStyles this rectSticky (Some containerRect)
        scroll dimensions in
    flowTrackingTop scrollY stickyTop containerTop
    == Math_abs (containerTop - stickyTop)
    /\ (r = Ok (style absolute 0)
        \/ r = Ok (style fixed
                     (- calcHeightDifference rectSticky (Some dimensions)))
        \/ r = Ok (style absolute
                     (flowTrackingTop (Math_round (IScroll.y scroll))
                        stickyTop containerTop))
        \/ r = Ok (style fixed (offsetTop this))).
Proof.
  intros this rectSticky c scroll dimensions scrollY stickyTop containerTop r.
  split.
  - unfold flowTrackingTop, Math_abs. apply Qabs_wd. ring.
  - assert (E : Math_round (or_num (rectSticky ?. IRect.top) 0) = stickyTop).
    { subst stickyTop.
      destruct rectSticky as [x | ]; cbn [Js.chain rectOrZero].
      - apply Math_round_or_num.
      - reflexivity. }
    subst r stickyTop containerTop. rewrite <- E.
    apply calcOverflowScrollFlowStickyStyles_cases.
Qed.


(** * Further properties of the component *)

(** ** The predicates in closed form *)

Lemma or_num_le (v x : number) : or_num (Some v) 0 <= x <-> v <= x.
Proof. rewrite (or_num_some v). reflexivity. Qed.

Lemma or_num_lt_l (v x : number) : or_num (Some v) 0 < x <-> v < x.
Proof. rewrite (or_num_some v). reflexivity. Qed.

Lemma or_num_lt_r (v x : number) : x < or_num (Some v) 0 <-> x < v.
Proof. rewrite (or_num_some v). reflexivity. Qed.

(** X1: a measured rectangle is near the viewport exactly when its top
    is below 700 and its bottom above -700; an unmeasured rectangle is
    near. *)
Theorem isNearToViewport_window :
  forall r : IRect.t,
    (isNearToViewport (Some r) = true
     <-> IRect.top r < 700 /\ - (700) < IRect.bottom r)
    /\ isNearToViewport None = true.
Proof.
  intro r. split; [ | reflexivity ].
  unfold isNearToViewport. cbn [Js.chain].
  rewrite andb_true_iff, lt_iff, gt_iff.
  pose proof (or_num_some (IRect.top r)) as T.
  pose proof (or_num_some (IRect.bottom r)) as B.
  split; intros [H1 H2]; split; lra.
Qed.

(** The height [isSticky] and [isDockedToBottom] hold against the room
    left in the container. *)
Lemma effective_height_le (this : Sticky) (h d x : number) :
  (if OverflowScrollType_eqb (overflowScroll (props this)) flow
   then Math_min (or_num (Some h) 0) d
   else or_num (Some h) 0) <= x
  <-> match overflowScroll (props this) with
      | flow => h <= x \/ d <= x
      | end_ => h <= x
      end.
Proof.
  destruct (overflowScroll (props this)); cbn [OverflowScrollType_eqb].
  - unfold Math_min. rewrite Q.min_le_iff, or_num_le. reflexivity.
  - apply or_num_le.
Qed.

(** X2: without a container, [isSticky] holds exactly when the rounded
    top of the container rectangle is at most [offsetTop]; the sticky
    rectangle, the viewport and the overflow policy play no part. *)
Theorem isSticky_without_container :
  forall (this : Sticky) (rect : option IRect.t) (containerRect : IRect.t)
         (dimensions : IDimensions.t),
    hasContainer this = false ->
    (isSticky this rect (Some containerRect) dimensions = true
     <-> Math_round (IRect.top containerRect) <= offsetTop this).
Proof.
  intros this rect c dimensions H.
  unfold isSticky. rewrite H. cbn [negb Js.chain].
  rewrite Math_round_or_num. apply le_iff.
Qed.

Lemma isSticky_without_container_witness :
  isSticky (newSticky defaultProps) None (Some (IRect.mk (-3) 40 43))
    (IDimensions.mk 600) = true.
Proof.
  apply (isSticky_without_container (newSticky defaultProps)).
  - reflexivity.
  - vm_compute. discriminate.
Defined.

(** X3: with a container and both rectangles measured, [isSticky] holds
    exactly when the rounded container top is at most [offsetTop] and the
    room below the offset, [round(containerRect.bottom) - offsetTop],
    holds the element: its height under the [end] policy, its height or
    the viewport height under the [flow] policy. *)
Theorem isSticky_with_container :
  forall (this : Sticky) (rect containerRect : IRect.t)
         (dimensions : IDimensions.t),
    hasContainer this = true ->
    (isSticky this (Some rect) (Some containerRect) dimensions = true
     <-> Math_round (IRect.top containerRect) <= offsetTop this
         /\ let room :=
              Math_round (IRect.bottom containerRect) - offsetTop this in
            match overflowScroll (props this) with
            | flow =>
                IRect.height rect <= room
                \/ IDimensions.height dimensions <= room
            | end_ => IRect.height rect <= room
            end).
Proof.
  intros this r c dimensions H. cbv zeta.
  rewrite <- effective_height_le.
  unfold isSticky. rewrite H. cbn [negb Js.chain].
  rewrite !Math_round_or_num.
  destruct (Js.gt _ _) eqn:G.
  - apply gt_iff in G. split; [discriminate | ].
    intros [L _]. exfalso. apply (Qlt_not_le _ _ G L).
  - apply lt_false_iff in G.
    destruct (Js.lt _ _) eqn:L.
    + apply lt_iff in L. split; [discriminate | ].
      intros [_ L']. exfalso. apply (Qlt_not_le _ _ L L').
    + apply lt_false_iff in L. tauto.
Qed.

Lemma isSticky_with_container_witness :
  isSticky
    (newSticky (mkProps (Some (mkRef None)) (StickyOffset.mk 0 0) 20 end_
                  false false false false))
    (Some (IRect.mk 20 70 50)) (Some (IRect.mk 10 500 490))
    (IDimensions.mk 800) = true.
Proof.
  apply (isSticky_with_container
           (newSticky (mkProps (Some (mkRef None)) (StickyOffset.mk 0 0) 20
                         end_ false false false false))).
  - reflexivity.
  - split; vm_compute; discriminate.
Defined.

Lemma isDockedToBottom_spec (this : Sticky)
    (rect containerRect : option IRect.t) (dimensions : IDimensions.t) :
    isDockedToBottom this rect containerRect dimensions = Ok true
    <-> exists r c,
          rect = Some r /\ containerRect = Some c
          /\ hasContainer this = true
          /\ IRect.height r <= IRect.height c
          /\ let room := Math_round (IRect.bottom c) - offsetTop this in
             match overflowScroll (props this) with
             | flow =>
                 room < IRect.height r
                 /\ room < IDimensions.height dimensions
             | end_ => room < IRect.height r
             end.
Proof.
  revert this rect containerRect dimensions.
  intros this rect containerRect dimensions. cbv zeta.
  unfold isDockedToBottom.
  destruct rect as [r | ], containerRect as [c | ];
    try (split; [discriminate | intros (r' & c' & E1 & E2 & _); discriminate]).
  destruct (hasContainer this);
    [ | split; [discriminate
              | intros (r' & c' & _ & _ & E & _); discriminate] ].
  cbn [negb Js.prop Js.bind].
  destruct (Js.gt (IRect.height r) (IRect.height c)) eqn:G.
  - apply gt_iff in G. split; [discriminate | ].
    intros (r' & c' & E1 & E2 & _ & L & _).
    injection E1 as <-. injection E2 as <-.
    exfalso. apply (Qlt_not_le _ _ G L).
  - apply lt_false_iff in G.
    set (room := Math_round (IRect.bottom c) - offsetTop this).
    destruct (overflowScroll (props this));
      cbn [OverflowScrollType_eqb Js.prop Js.bind].
    + destruct (Js.ge room _) eqn:L.
      * apply ge_iff in L. unfold Math_min in L.
        apply Q.min_le_iff in L.
        split; [discriminate | ].
        intros (r' & c' & E1 & E2 & _ & _ & L1 & L2).
        injection E1 as <-. injection E2 as <-. subst room.
        destruct L as [L | L]; exfalso;
          [apply (Qlt_not_le _ _ L1 L) | apply (Qlt_not_le _ _ L2 L)].
      * apply lt_true_ge_false in L. apply lt_iff in L.
        unfold Math_min in L. apply Q.min_glb_lt_iff in L.
        split; [ | reflexivity ]. intros _.
        exists r, c. tauto.
    + destruct (Js.ge room _) eqn:L.
      * apply ge_iff in L.
        split; [discriminate | ].
        intros (r' & c' & E1 & E2 & _ & _ & L1).
        injection E1 as <-. injection E2 as <-. subst room.
        exfalso. apply (Qlt_not_le _ _ L1 L).
      * apply lt_true_ge_false in L. apply lt_iff in L.
        split; [ | reflexivity ]. intros _.
        exists r, c. tauto.
Qed.

(** X4: [isDockedToBottom] answers true exactly when both rectangles are
    measured, a container is given, the element is not taller than the
    container, and the room below the offset is smaller than the height
    the element needs. *)
Theorem isDockedToBottom_iff :
  forall (this : Sticky) (rect containerRect : option IRect.t)
         (dimensions : IDimensions.t),
    isDockedToBottom this rect containerRect dimensions = Ok true
    <-> exists r c,
          rect = Some r /\ containerRect = Some c
          /\ hasContainer this = true
          /\ IRect.height r <= IRect.height c
          /\ let room := Math_round (IRect.bottom c) - offsetTop this in
             match overflowScroll (props this) with
             | flow =>
                 room < IRect.height r
                 /\ room < IDimensions.height dimensions
             | end_ => room < IRect.height r
             end.
Proof. exact isDockedToBottom_spec. Qed.

Lemma offsetTop_ext (this1 this2 : Sticky) :
  stickyOffset (props this1) = stickyOffset (props this2) ->
  defaultOffsetTop (props this1) = defaultOffsetTop (props this2) ->
  offsetTop this1 = offsetTop this2.
Proof. unfold offsetTop. intros -> ->. reflexivity. Qed.

Lemma hasContainer_ext (this1 this2 : Sticky) :
  container (props this1) = container (props this2) ->
  hasContainer this1 = hasContainer this2.
Proof. unfold hasContainer. intros ->. reflexivity. Qed.

(** X5: the [flow] policy only widens the sticky range.  Of two
    instances that differ in the overflow policy alone, the one under
    [flow] is sticky wherever the one under [end] is, and the one under
    [end] is docked wherever the one under [flow] is. *)
Theorem flow_policy_widens_sticky :
  forall (this1 this2 : Sticky) (rect containerRect : option IRect.t)
         (dimensions : IDimensions.t),
    container (props this1) = container (props this2) ->
    stickyOffset (props this1) = stickyOffset (props this2) ->
    defaultOffsetTop (props this1) = defaultOffsetTop (props this2) ->
    overflowScroll (props this1) = end_ ->
    overflowScroll (props this2) = flow ->
    (isSticky this1 rect containerRect dimensions = true ->
     isSticky this2 rect containerRect dimensions = true)
    /\ (isDockedToBottom this2 rect containerRect dimensions = Ok true ->
        isDockedToBottom this1 rect containerRect dimensions = Ok true).
Proof.
  intros this1 this2 rect containerRect dimensions C O D P1 P2.
  pose proof (offsetTop_ext _ _ O D) as EO.
  pose proof (hasContainer_ext _ _ C) as EC.
  split.
  - unfold isSticky. rewrite EC, EO, P1, P2.
    cbn [OverflowScrollType_eqb].
    destruct (negb (hasContainer this2)); trivial.
    destruct (Js.gt _ _); trivial.
    destruct (Js.lt _ (or_num _ 0)) eqn:L; [discriminate | ].
    intros _. apply lt_false_iff in L.
    assert (L' : Js.lt
                   (Math_round (or_num (containerRect ?. IRect.bottom) 0)
                    - offsetTop this2)
                   (Math_min (or_num (rect ?. IRect.height) 0)
                      (IDimensions.height dimensions)) = false).
    { apply lt_false_iff. unfold Math_min.
      apply Qle_trans with (or_num (rect ?. IRect.height) 0);
        [apply Q.le_min_l | exact L]. }
    rewrite L'. reflexivity.
  - rewrite !isDockedToBottom_spec.
    intros (r & c & E1 & E2 & H & G & L).
    exists r, c. rewrite EC, EO, P1. rewrite P2 in L.
    cbv zeta in *. tauto.
Qed.

Lemma flow_policy_widens_sticky_witness :
  let p o :=
    mkProps (Some (mkRef None)) (StickyOffset.mk 0 0) 0 o
      false false false false in
  isSticky (newSticky (p flow)) (Some (IRect.mk 0 900 900))
    (Some (IRect.mk (-100) 1000 1100)) (IDimensions.mk 600) = true.
Proof.
  cbv zeta.
  refine (proj1 (flow_policy_widens_sticky
                   (newSticky (mkProps (Some (mkRef None))
                                 (StickyOffset.mk 0 0) 0 end_
                                 false false false false))
                   (newSticky (mkProps (Some (mkRef None))
                                 (StickyOffset.mk 0 0) 0 flow
                                 false false false false))
                   _ _ _ eq_refl eq_refl eq_refl eq_refl eq_refl) _).
  reflexivity.
Defined.

(** ** The styles *)

Lemma calcHeightDifference_nonneg (rect : option IRect.t)
    (dimensions : option IDimensions.t) :
  0 <= calcHeightDifference rect dimensions.
Proof.
  unfold calcHeightDifference. destruct dimensions as [d | ].
  - unfold Math_max. apply Q.le_max_l.
  - apply Qle_refl.
Qed.

(** X6: when the page scrolls neither up nor down, the flow algorithm
    pins the element at [offsetTop], whatever the rectangles. *)
Theorem flow_without_direction_pins :
  forall (this : Sticky) (rectSticky : option IRect.t)
         (containerRect : IRect.t) (scroll : IScroll.t)
         (dimensions : IDimensions.t),
    IScroll.isScrollingUp scroll = false ->
    IScroll.isScrollingDown scroll = false ->
    calcOverflowScrollFlowStickyStyles this rectSticky (Some containerRect)
      scroll dimensions
    = Ok (style fixed (offsetTop this)).
Proof.
  intros this rectSticky c scroll dimensions U D.
  unfold calcOverflowScrollFlowStickyStyles.
  cbn [Js.prop Js.bind]. cbv zeta. rewrite U, D. reflexivity.
Qed.

Lemma flow_without_direction_pins_witness :
  calcOverflowScrollFlowStickyStyles
    (newSticky (mkProps None (StickyOffset.mk 0 0) 12 flow
                  false false false false))
    (Some (IRect.mk 12 912 900)) (Some (IRect.mk (-40) 2000 2040))
    (IScroll.mk 40 0 0 false false) (IDimensions.mk 600)
  = Ok (style fixed (0 + 12)).
Proof.
  apply (flow_without_direction_pins
           (newSticky (mkProps None (StickyOffset.mk 0 0) 12 flow
                         false false false false)));
    reflexivity.
Defined.

(** X7: with a measured container the flow algorithm never raises and
    never returns a negative [top] with [absolute]; a [fixed] style has
    [offsetTop] as its top or a top that is zero or negative (minus the
    excess of the element over the viewport). *)
Theorem flow_styles_bounds :
  forall (this : Sticky) (rectSticky : option IRect.t)
         (containerRect : IRect.t) (scroll : IScroll.t)
         (dimensions : IDimensions.t),
    exists (p : Position) (t : number),
      calcOverflowScrollFlowStickyStyles this rectSticky
        (Some containerRect) scroll dimensions
      = Ok (style p t)
      /\ match p with
         | absolute => 0 <= t
         | fixed => t = offsetTop this \/ t <= 0
         end.
Proof.
  intros this rectSticky c scroll dimensions.
  destruct (calcOverflowScrollFlowStickyStyles_cases this rectSticky c
              scroll dimensions) as [E | [E | [E | E]]];
    cbv zeta in E; rewrite E.
  - exists absolute, 0. split; [reflexivity | apply Qle_refl].
  - eexists fixed, _. split; [reflexivity | ]. right.
    pose proof (calcHeightDifference_nonneg rectSticky (Some dimensions)).
    lra.
  - eexists absolute, _. split; [reflexivity | ].
    unfold flowTrackingTop, Math_abs. apply Qabs_nonneg.
  - eexists fixed, _. split; [reflexivity | ]. left. reflexivity.
Qed.

(** The styles of [calcPositionStyles] carry a position and a top and
    no hint. *)
Lemma calcPositionStyles_style (this : Sticky)
    (rectSticky containerRect : option IRect.t) (scroll : IScroll.t)
    (dimensions : IDimensions.t) (s : IPositionStyles.t) :
  calcPositionStyles this rectSticky containerRect scroll dimensions = Ok s ->
  exists p t, s = style p t.
Proof.
  unfold calcPositionStyles.
  destruct (isSticky this rectSticky containerRect dimensions).
  - destruct (OverflowScrollType_eqb _ flow).
    + destruct containerRect as [c | ]; [ | discriminate ].
      destruct (calcOverflowScrollFlowStickyStyles_cases this rectSticky c
                  scroll dimensions) as [E | [E | [E | E]]];
        cbv zeta in E; rewrite E; intro H; injection H as <-;
        eexists _, _; reflexivity.
    + destruct (_ && _).
      * destruct containerRect as [c | ]; [ | discriminate ].
        cbn [Js.prop Js.bind]. intro H; injection H as <-.
        eexists _, _; reflexivity.
      * intro H; injection H as <-. eexists _, _; reflexivity.
  - destruct (isDockedToBottom this rectSticky containerRect dimensions)
      as [[ | ] | ]; cbn [Js.bind]; try discriminate.
    + destruct containerRect as [c | ]; [ | discriminate ].
      cbn [Js.prop Js.bind]. intro H; injection H as <-.
      eexists _, _; reflexivity.
    + intro H; injection H as <-. eexists _, _; reflexivity.
Qed.

(** X8: [calcPositionStyles] raises exactly when the container
    rectangle is unmeasured while the element counts as sticky and
    either the applied overflow mode is [flow] or the group offset is
    partly shown ([0 < top < height]). *)
Theorem calcPositionStyles_raises_iff :
  forall (this : Sticky) (rectSticky containerRect : option IRect.t)
         (scroll : IScroll.t) (dimensions : IDimensions.t),
    calcPositionStyles this rectSticky containerRect scroll dimensions
    = TypeError
    <-> containerRect = None
        /\ isSticky this rectSticky containerRect dimensions = true
        /\ (getOverflowScrollType this rectSticky dimensions = flow
            \/ (0 < StickyOffset.top (stickyOffset (props this))
                /\ StickyOffset.top (stickyOffset (props this))
                   < StickyOffset.height (stickyOffset (props this)))).
Proof.
  intros this rectSticky containerRect scroll dimensions.
  unfold calcPositionStyles.
  destruct (isSticky this rectSticky containerRect dimensions).
  - destruct (getOverflowScrollType this rectSticky dimensions);
      cbn [OverflowScrollType_eqb].
    + destruct containerRect as [c | ].
      * destruct (calcOverflowScrollFlowStickyStyles_cases this rectSticky c
                    scroll dimensions) as [E | [E | [E | E]]];
          cbv zeta in E; rewrite E;
          (split; [discriminate | intros [N _]; discriminate]).
      * split; [ | reflexivity ]. intros _. auto.
    + destruct (Js.gt _ 0) eqn:G; cbn [andb].
      * destruct (Js.lt _ _) eqn:L.
        -- apply gt_iff in G. apply lt_iff in L.
           destruct containerRect as [c | ]; cbn [Js.prop Js.bind].
           ++ split; [discriminate | intros [N _]; discriminate].
           ++ split; [ | reflexivity ]. intros _. auto.
        -- apply lt_false_iff in L.
           split; [discriminate | ].
           intros (_ & _ & [F | [_ L']]); [discriminate | ].
           exfalso. apply (Qlt_not_le _ _ L' L).
      * apply lt_false_iff in G.
        split; [discriminate | ].
        intros (_ & _ & [F | [G' _]]); [discriminate | ].
        exfalso. apply (Qlt_not_le _ _ G' G).
  - destruct (isDockedToBottom this rectSticky containerRect dimensions)
      as [[ | ] | ] eqn:D; cbn [Js.bind].
    + apply isDockedToBottom_spec in D.
      destruct D as (r & c & _ & -> & _).
      cbn [Js.prop Js.bind].
      split; [discriminate | intros [N _]; discriminate].
    + split; [discriminate | intros (_ & F & _); discriminate].
    + destruct (isDockedToBottom_total this rectSticky containerRect
                  dimensions) as [b B].
      congruence.
Qed.

(** X9: an element that is not sticky always gets an [absolute] style
    and no error: a docked element the top
    [containerRect.height - rect.height], which is not negative, any
    other element the top 0. *)
Theorem calcPositionStyles_not_sticky :
  forall (this : Sticky) (rectSticky containerRect : option IRect.t)
         (scroll : IScroll.t) (dimensions : IDimensions.t),
    isSticky this rectSticky containerRect dimensions = false ->
    exists t : number,
      calcPositionStyles this rectSticky containerRect scroll dimensions
      = Ok (style absolute t)
      /\ 0 <= t
      /\ (isDockedToBottom this rectSticky containerRect dimensions
          = Ok true ->
          t == IRect.height (rectOrZero containerRect)
               - IRect.height (rectOrZero rectSticky))
      /\ (isDockedToBottom this rectSticky containerRect dimensions
          = Ok false ->
          t = 0).
Proof.
  intros this rectSticky containerRect scroll dimensions S.
  unfold calcPositionStyles. rewrite S.
  destruct (isDockedToBottom this rectSticky containerRect dimensions)
    as [[ | ] | ] eqn:D; cbn [Js.bind].
  - apply isDockedToBottom_spec in D.
    destruct D as (r & c & -> & -> & _ & L & _).
    cbn [Js.prop Js.bind Js.chain rectOrZero].
    eexists. split; [reflexivity | ].
    pose proof (or_num_some (IRect.height r)) as E.
    repeat split; try discriminate; try lra.
  - exists 0. repeat split; try discriminate; try apply Qle_refl.
  - destruct (isDockedToBottom_total this rectSticky containerRect
                dimensions) as [b B].
    congruence.
Qed.

Lemma calcPositionStyles_not_sticky_witness :
  exists t : number,
    calcPositionStyles
      (newSticky (mkProps (Some (mkRef None)) (StickyOffset.mk 0 0) 0 end_
                    false false false false))
      (Some (IRect.mk (-20) 40 60)) (Some (IRect.mk (-50) 40 90))
      (IScroll.mk 50 0 0 false true) (IDimensions.mk 800)
    = Ok (style absolute t)
    /\ t == 30.
Proof.
  destruct (calcPositionStyles_not_sticky
              (newSticky (mkProps (Some (mkRef None)) (StickyOffset.mk 0 0)
                            0 end_ false false false false))
              (Some (IRect.mk (-20) 40 60)) (Some (IRect.mk (-50) 40 90))
              (IScroll.mk 50 0 0 false true) (IDimensions.mk 800) eq_refl)
    as (t & E & _ & D & _).
  exists t. split; [exact E | ].
  rewrite (D eq_refl). reflexivity.
Defined.

(** [getStickyStyles] raises exactly when [calcPositionStyles] does. *)
Lemma getStickyStyles_raises (env : Platform) (this : Sticky)
    (rect containerRect : option IRect.t) (scroll : IScroll.t)
    (dimensions : IDimensions.t) :
  getStickyStyles env this rect containerRect scroll dimensions = TypeError
  <-> calcPositionStyles this rect containerRect scroll dimensions
      = TypeError.
Proof.
  unfold getStickyStyles.
  destruct (calcPositionStyles this rect containerRect scroll dimensions);
    cbn [Js.bind]; [ | tauto ].
  destruct (negb _); [destruct (supportsWillChange env) | ];
    split; discriminate.
Qed.

(** X10: [getStickyStyles] keeps the position and the top that
    [calcPositionStyles] has chosen and adds at most one hint:
    [willChange] on a platform that supports it, [transform] on one that
    does not, and either only while acceleration is not disabled and the
    sticky rectangle is near the viewport. *)
Theorem getStickyStyles_hint :
  forall (env : Platform) (this : Sticky)
         (rect containerRect : option IRect.t) (scroll : IScroll.t)
         (dimensions : IDimensions.t) (s : IPositionStyles.t),
    getStickyStyles env this rect containerRect scroll dimensions = Ok s ->
    let hinted :=
      negb (disableHardwareAcceleration (props this))
      && isNearToViewport rect in
    exists (p : Position) (t : number),
      calcPositionStyles this rect containerRect scroll dimensions
      = Ok (style p t)
      /\ IPositionStyles.position s = Some p
      /\ IPositionStyles.top s = Some t
      /\ IPositionStyles.willChange s
         = (if hinted && supportsWillChange env
            then Some position_top else None)
      /\ IPositionStyles.transform s
         = (if hinted && negb (supportsWillChange env)
            then Some translateZ0 else None).
Proof.
  intros env this rect containerRect scroll dimensions s. cbv zeta.
  unfold getStickyStyles.
  destruct (calcPositionStyles this rect containerRect scroll dimensions)
    as [s0 | ] eqn:C; cbn [Js.bind]; [ | discriminate ].
  destruct (calcPositionStyles_style _ _ _ _ _ _ C) as (p & t & ->).
  exists p, t. split; [reflexivity | ].
  destruct (disableHardwareAcceleration (props this)); cbn [negb andb] in *.
  - injection H as <-. repeat split.
  - destruct (supportsWillChange env), (isNearToViewport rect);
      injection H as <-; repeat split.
Qed.

Lemma getStickyStyles_hint_witness :
  exists (p : Position) (t : number),
    calcPositionStyles (newSticky defaultProps)
      (Some (IRect.mk 0 50 50)) (Some (IRect.mk (-10) 40 50))
      (IScroll.mk 10 0 0 false true) (IDimensions.mk 800)
    = Ok (style p t).
Proof.
  destruct (getStickyStyles_hint (mkPlatform false true false)
              (newSticky defaultProps)
              (Some (IRect.mk 0 50 50)) (Some (IRect.mk (-10) 40 50))
              (IScroll.mk 10 0 0 false true) (IDimensions.mk 800)
              _ eq_refl)
    as (p & t & E & _).
  exists p, t. exact E.
Defined.

(** ** The update cycle *)

Lemma isSticky_props (this1 this2 : Sticky)
    (rect containerRect : option IRect.t) (dimensions : IDimensions.t) :
  props this1 = props this2 ->
  isSticky this1 rect containerRect dimensions
  = isSticky this2 rect containerRect dimensions.
Proof.
  destruct this1, this2. cbn [props]. intros <-. reflexivity.
Qed.

Lemma isDockedToBottom_props (this1 this2 : Sticky)
    (rect containerRect : option IRect.t) (dimensions : IDimensions.t) :
  props this1 = props this2 ->
  isDockedToBottom this1 rect containerRect dimensions
  = isDockedToBottom this2 rect containerRect dimensions.
Proof.
  destruct this1, this2. cbn [props]. intros <-. reflexivity.
Qed.

Lemma getOverflowScrollType_props (this1 this2 : Sticky)
    (rect : option IRect.t) (dimensions : IDimensions.t) :
  props this1 = props this2 ->
  getOverflowScrollType this1 rect dimensions
  = getOverflowScrollType this2 rect dimensions.
Proof.
  destruct this1, this2. cbn [props]. intros <-. reflexivity.
Qed.

Lemma calcPositionStyles_props (this1 this2 : Sticky)
    (rect containerRect : option IRect.t) (scroll : IScroll.t)
    (dimensions : IDimensions.t) :
  props this1 = props this2 ->
  calcPositionStyles this1 rect containerRect scroll dimensions
  = calcPositionStyles this2 rect containerRect scroll dimensions.
Proof.
  destruct this1, this2. cbn [props]. intros <-. reflexivity.
Qed.

(** The native decision touches the warning flag only. *)
Lemma shouldUseNativeSticky_frame (env : Platform) (this : Sticky)
    (applied : OverflowScrollType) :
  let this1 := snd (fst (shouldUseNativeSticky env this applied)) in
  props this1 = props this
  /\ placeholderRef this1 = placeholderRef this
  /\ state this1 = state this.
Proof.
  unfold shouldUseNativeSticky.
  destruct (_ || _); cbn [fst snd]; auto.
  destruct (_ && _); cbn; auto.
Qed.

(** A second decision on the instance the first one left, or on one
    that differs from it in the state only, returns the same boolean,
    prints nothing and changes nothing. *)
Lemma shouldUseNativeSticky_again (env : Platform) (this X : Sticky)
    (applied : OverflowScrollType) :
  props X = props this ->
  placeholderRef X = placeholderRef this ->
  nativeStickyThrewOnce X
  = nativeStickyThrewOnce (snd (fst (shouldUseNativeSticky env this applied)))
  ->
  shouldUseNativeSticky env X applied
  = (fst (fst (shouldUseNativeSticky env this applied)), X, []).
Proof.
  intros P R. unfold shouldUseNativeSticky, placeholderParent,
    containerElement. rewrite P, R.
  destruct (_ || _); cbn [fst snd]; [reflexivity | ].
  destruct (negb (production env)); cbn [andb]; [ | reflexivity ].
  destruct (nativeStickyThrewOnce this) eqn:F; cbn [negb andb].
  - cbn [fst snd]. rewrite F. intros ->. reflexivity.
  - destruct (ref_sne _ _); cbn [fst snd nativeStickyThrewOnce];
      try rewrite F; intros ->; reflexivity.
Qed.

(** [handleScrollUpdate] of an enabled instance, through [commit]. *)
Lemma handleScrollUpdate_commit (env : Platform) (this : Sticky)
    (scroll : IScroll.t) (dimensions : IDimensions.t)
    (stickyRect containerRect : option IRect.t) :
  disabled (props this) = false ->
  handleScrollUpdate env this scroll dimensions stickyRect containerRect
  = let applied := getOverflowScrollType this stickyRect dimensions in
    let step := shouldUseNativeSticky env this applied in
    let u := fst (fst step) in
    let this1 := snd (fst step) in
    match (if u then Ok IPositionStyles.empty
           else getStickyStyles env this stickyRect containerRect scroll
                  dimensions) with
    | TypeError => (TypeError, this1, snd step)
    | Ok styles =>
        match (if childrenIsFunction (props this)
               then isDockedToBottom this stickyRect containerRect
                      dimensions
               else Ok false) with
        | TypeError => (TypeError, this1, snd step)
        | Ok docked =>
            (Ok tt,
             commit u styles
               (if childrenIsFunction (props this)
                then isSticky this stickyRect containerRect dimensions
                else false)
               docked (isNearToViewport stickyRect) applied this1,
             snd step)
        end
    end.
Proof.
  intro D. unfold handleScrollUpdate. rewrite D. cbv zeta.
  pose proof (shouldUseNativeSticky_frame env this
                (getOverflowScrollType this stickyRect dimensions))
    as (P & _ & _).
  cbv zeta in P.
  destruct (shouldUseNativeSticky env this _) as [[u this1] out].
  cbn [fst snd] in *.
  rewrite (getStickyStyles_props env this1 this _ _ _ _ P).
  rewrite (isSticky_props this1 this _ _ _ P).
  rewrite (isDockedToBottom_props this1 this _ _ _ P).
  destruct (if u then _ else _) as [styles | ]; cbn [Js.bind];
    [ | reflexivity ].
  destruct (if childrenIsFunction (props this) then _ else _)
    as [docked | ]; cbn [Js.bind]; [ | reflexivity ].
  unfold commit. cbv zeta.
  destruct (_ && _); reflexivity.
Qed.

Lemma OverflowScrollType_eqb_eq (a b : OverflowScrollType) :
  OverflowScrollType_eqb a b = true <-> a = b.
Proof. destruct a, b; cbn; split; congruence. Qed.

Lemma commit_frame (u : bool) (styles : IPositionStyles.t)
    (s d n : bool) (a : OverflowScrollType) (this1 : Sticky) :
  props (commit u styles s d n a this1) = props this1
  /\ placeholderRef (commit u styles s d n a this1) = placeholderRef this1
  /\ nativeStickyThrewOnce (commit u styles s d n a this1)
     = nativeStickyThrewOnce this1.
Proof. unfold commit. cbv zeta. destruct (_ && _); cbn; auto. Qed.

(** After [commit] the state holds the values that were committed. *)
Lemma commit_state (u : bool) (styles : IPositionStyles.t)
    (s d n : bool) (a : OverflowScrollType) (this1 : Sticky) :
  let st := state (commit u styles s d n a this1) in
  st_useNativeSticky st = u
  /\ st_isSticky st = s
  /\ st_isDockedToBottom st = d
  /\ st_isNearToViewport st = n
  /\ st_appliedOverflowScroll st = a
  /\ shallowEqualPositionStyles styles (st_styles st) = true.
Proof.
  unfold commit. cbv zeta.
  destruct (_ && _) eqn:T.
  - rewrite !negb_involutive in T. rewrite !andb_true_iff in T.
    destruct T as (((((T1 & T2) & T3) & T4) & T5) & T6).
    apply eqb_prop in T1, T3, T4, T5.
    apply OverflowScrollType_eqb_eq in T6.
    auto 10.
  - cbn [state setState st_useNativeSticky st_isSticky st_isDockedToBottom
           st_isNearToViewport st_appliedOverflowScroll st_styles].
    repeat split.
    destruct (shallowEqualPositionStyles styles (st_styles (state this1)))
      eqn:E; cbn [negb].
    + exact E.
    + apply shallowEqualPositionStyles_refl.
Qed.

(** Committing the same values again changes nothing. *)
Lemma commit_idem (u : bool) (styles : IPositionStyles.t)
    (s d n : bool) (a : OverflowScrollType) (this1 : Sticky) :
  commit u styles s d n a (commit u styles s d n a this1)
  = commit u styles s d n a this1.
Proof.
  pose proof (commit_state u styles s d n a this1) as H. cbv zeta in H.
  destruct H as (H1 & H2 & H3 & H4 & H5 & H6).
  set (this2 := commit u styles s d n a this1) in *.
  unfold commit. cbv zeta.
  rewrite H1, H2, H3, H4, H5, H6.
  rewrite !eqb_reflx.
  assert (R : OverflowScrollType_eqb a a = true)
    by (apply OverflowScrollType_eqb_eq; reflexivity).
  rewrite R. reflexivity.
Qed.

(** X11: an update cycle repeated on the same measurements is a no-op.
    Whatever the first call did, a second call with the same scroll
    state, dimensions and rectangles ends the same way, leaves the
    instance as the first call left it and prints nothing. *)
Theorem handleScrollUpdate_idempotent :
  forall (env : Platform) (this : Sticky) (scroll : IScroll.t)
         (dimensions : IDimensions.t)
         (stickyRect containerRect : option IRect.t),
    let run :=
      handleScrollUpdate env this scroll dimensions stickyRect
        containerRect in
    handleScrollUpdate env (snd (fst run)) scroll dimensions stickyRect
      containerRect
    = (fst (fst run), snd (fst run), []).
Proof.
  intros env this scroll dimensions stickyRect containerRect. cbv zeta.
  destruct (disabled (props this)) eqn:D.
  - unfold handleScrollUpdate at 2 3 4. rewrite D. cbn [fst snd].
    unfold handleScrollUpdate. rewrite D. reflexivity.
  - rewrite (handleScrollUpdate_commit env this _ _ _ _ D). cbv zeta.
    set (applied := getOverflowScrollType this stickyRect dimensions).
    pose proof (shouldUseNativeSticky_frame env this applied)
      as (P1 & R1 & _).
    cbv zeta in P1, R1.
    set (step := shouldUseNativeSticky env this applied) in *.
    set (u := fst (fst step)). set (this1 := snd (fst step)) in *.
    assert (Again : forall X,
               props X = props this1 ->
               placeholderRef X = placeholderRef this1 ->
               nativeStickyThrewOnce X = nativeStickyThrewOnce this1 ->
               disabled (props X) = false
               /\ getOverflowScrollType X stickyRect dimensions = applied
               /\ shouldUseNativeSticky env X applied = (u, X, [])).
    { intros X PX RX FX. split; [ | split ].
      - rewrite PX, P1. exact D.
      - apply getOverflowScrollType_props. rewrite PX. exact P1.
      - apply shouldUseNativeSticky_again.
        + rewrite PX. exact P1.
        + rewrite RX. exact R1.
        + exact FX. }
    assert (Second : forall X,
               props X = props this1 ->
               placeholderRef X = placeholderRef this1 ->
               nativeStickyThrewOnce X = nativeStickyThrewOnce this1 ->
               handleScrollUpdate env X scroll dimensions stickyRect
                 containerRect
               = match (if u then Ok IPositionStyles.empty
                        else getStickyStyles env this stickyRect
                               containerRect scroll dimensions) with
                 | TypeError => (TypeError, X, [])
                 | Ok styles =>
                     match (if childrenIsFunction (props this)
                            then isDockedToBottom this stickyRect
                                   containerRect dimensions
                            else Ok false) with
                     | TypeError => (TypeError, X, [])
                     | Ok docked =>
                         (Ok tt,
                          commit u styles
                            (if childrenIsFunction (props this)
                             then isSticky this stickyRect containerRect
                                    dimensions
                             else false)
                            docked (isNearToViewport stickyRect) applied X,
                          [])
                     end
                 end).
    { intros X PX RX FX.
      destruct (Again X PX RX FX) as (DX & AX & SX).
      rewrite (handleScrollUpdate_commit env X _ _ _ _ DX). cbv zeta.
      rewrite AX, SX. cbn [fst snd].
      assert (PX' : props X = props this) by (rewrite PX; exact P1).
      rewrite (getStickyStyles_props env X this _ _ _ _ PX').
      rewrite (isSticky_props X this _ _ _ PX').
      rewrite (isDockedToBottom_props X this _ _ _ PX').
      rewrite PX'. reflexivity. }
    destruct (if u then _ else _) as [styles | ] eqn:G; cbn [fst snd].
    + destruct (if childrenIsFunction (props this) then _ else _)
        as [docked | ] eqn:K; cbn [fst snd].
      * destruct (commit_frame u styles
                    (if childrenIsFunction (props this)
                     then isSticky this stickyRect containerRect dimensions
                     else false)
                    docked (isNearToViewport stickyRect) applied this1)
          as (PC & RC & FC).
        rewrite (Second _ PC RC FC).
        rewrite commit_idem. reflexivity.
      * rewrite (Second this1 eq_refl eq_refl eq_refl). reflexivity.
    + rewrite (Second this1 eq_refl eq_refl eq_refl). reflexivity.
Qed.

(** What a cycle that ends normally has computed and committed. *)
Lemma handleScrollUpdate_ok (env : Platform) (this : Sticky)
    (scroll : IScroll.t) (dimensions : IDimensions.t)
    (stickyRect containerRect : option IRect.t) :
  disabled (props this) = false ->
  fst (fst (handleScrollUpdate env this scroll dimensions stickyRect
              containerRect)) = Ok tt ->
  let applied := getOverflowScrollType this stickyRect dimensions in
  let step := shouldUseNativeSticky env this applied in
  exists (styles : IPositionStyles.t) (docked : bool),
    (if fst (fst step) then Ok IPositionStyles.empty
     else getStickyStyles env this stickyRect containerRect scroll
            dimensions) = Ok styles
    /\ (if childrenIsFunction (props this)
        then isDockedToBottom this stickyRect containerRect dimensions
        else Ok false) = Ok docked
    /\ snd (fst (handleScrollUpdate env this scroll dimensions stickyRect
                   containerRect))
       = commit (fst (fst step)) styles
           (if childrenIsFunction (props this)
            then isSticky this stickyRect containerRect dimensions
            else false)
           docked (isNearToViewport stickyRect) applied (snd (fst step)).
Proof.
  intros D. rewrite (handleScrollUpdate_commit env this _ _ _ _ D).
  cbv zeta.
  set (step := shouldUseNativeSticky env this _).
  destruct (if fst (fst step) then _ else _) as [styles | ];
    cbn [fst snd]; [ | discriminate ].
  destruct (if childrenIsFunction (props this) then _ else _)
    as [docked | ]; cbn [fst snd]; [ | discriminate ].
  intros _. exists styles, docked. auto.
Qed.

(** X12: after an update cycle that ends normally, the state agrees
    with the measurements of that cycle, whether or not [setState] was
    called: the applied overflow mode, the native decision and the
    proximity flag are the computed ones; [isSticky] and
    [isDockedToBottom] are the computed ones when the children are a
    render function and false otherwise; and [render] asks
    [ObserveViewport] for the highest priority exactly when the sticky
    rectangle is near the viewport. *)
Theorem handleScrollUpdate_state_in_sync :
  forall (env : Platform) (this : Sticky) (scroll : IScroll.t)
         (dimensions : IDimensions.t)
         (stickyRect containerRect : option IRect.t),
    disabled (props this) = false ->
    fst (fst (handleScrollUpdate env this scroll dimensions stickyRect
                containerRect)) = Ok tt ->
    let this' :=
      snd (fst (handleScrollUpdate env this scroll dimensions stickyRect
                  containerRect)) in
    let st := state this' in
    let applied := getOverflowScrollType this stickyRect dimensions in
    st_appliedOverflowScroll st = applied
    /\ st_useNativeSticky st
       = fst (fst (shouldUseNativeSticky env this applied))
    /\ st_isNearToViewport st = isNearToViewport stickyRect
    /\ st_isSticky st
       = (childrenIsFunction (props this)
          && isSticky this stickyRect containerRect dimensions)
    /\ (if childrenIsFunction (props this)
        then isDockedToBottom this stickyRect containerRect dimensions
        else Ok false) = Ok (st_isDockedToBottom st)
    /\ priority (renderObserveViewport this')
       = (if isNearToViewport stickyRect then highest else low).
Proof.
  intros env this scroll dimensions stickyRect containerRect D H.
  destruct (handleScrollUpdate_ok env this _ _ _ _ D H)
    as (styles & docked & _ & K & E).
  cbv zeta. rewrite E.
  match goal with
  | |- context [commit ?u ?s ?a ?b ?c ?d ?t] =>
      pose proof (commit_state u s a b c d t) as C
  end.
  cbv zeta in C. destruct C as (C1 & C2 & C3 & C4 & C5 & _).
  unfold renderObserveViewport. cbn [priority].
  rewrite C1, C2, C3, C4, C5, K.
  repeat split.
Qed.

Lemma handleScrollUpdate_state_in_sync_witness :
  let env := mkPlatform true true false in
  let this :=
    newSticky (mkProps (Some (mkRef None)) (StickyOffset.mk 0 0) 20 end_
                 false false false true) in
  let run :=
    handleScrollUpdate env this (IScroll.mk 30 0 0 false true)
      (IDimensions.mk 800) (Some (IRect.mk 20 70 50))
      (Some (IRect.mk 10 500 490)) in
  st_isSticky (state (snd (fst run))) = true
  /\ priority (renderObserveViewport (snd (fst run))) = highest.
Proof.
  cbv zeta.
  destruct (handleScrollUpdate_state_in_sync (mkPlatform true true false)
              (newSticky (mkProps (Some (mkRef None)) (StickyOffset.mk 0 0)
                            20 end_ false false false true))
              (IScroll.mk 30 0 0 false true) (IDimensions.mk 800)
              (Some (IRect.mk 20 70 50)) (Some (IRect.mk 10 500 490))
              eq_refl eq_refl)
    as (_ & _ & _ & S & _ & P).
  split; [rewrite S | rewrite P]; reflexivity.
Defined.

(** X13: after an update cycle that ends normally the state never
    reports the element as sticky and as docked to the bottom at once,
    whatever the state was before. *)
Theorem handleScrollUpdate_state_exclusive :
  forall (env : Platform) (this : Sticky) (scroll : IScroll.t)
         (dimensions : IDimensions.t)
         (stickyRect containerRect : option IRect.t),
    disabled (props this) = false ->
    fst (fst (handleScrollUpdate env this scroll dimensions stickyRect
                containerRect)) = Ok tt ->
    let st :=
      state (snd (fst (handleScrollUpdate env this scroll dimensions
                         stickyRect containerRect))) in
    st_isSticky st && st_isDockedToBottom st = false.
Proof.
  intros env this scroll dimensions stickyRect containerRect D H.
  destruct (handleScrollUpdate_ok env this _ _ _ _ D H)
    as (styles & docked & _ & K & E).
  cbv zeta. rewrite E.
  match goal with
  | |- context [commit ?u ?s ?a ?b ?c ?d ?t] =>
      pose proof (commit_state u s a b c d t) as C
  end.
  cbv zeta in C. destruct C as (_ & C2 & C3 & _).
  rewrite C2, C3.
  destruct (childrenIsFunction (props this)); [ | reflexivity ].
  destruct (isSticky this stickyRect containerRect dimensions) eqn:S;
    [ | reflexivity ].
  destruct docked; [ | reflexivity ].
  exfalso. exact (isSticky_not_docked _ _ _ _ S K).
Qed.

Lemma handleScrollUpdate_state_exclusive_witness :
  let env := mkPlatform true true false in
  let this :=
    mkSticky (mkProps (Some (mkRef None)) (StickyOffset.mk 0 0) 0 end_
                false false false true)
      (mkRef None) false
      (mkState true true false end_ IPositionStyles.empty false) in
  let run :=
    handleScrollUpdate env this (IScroll.mk 50 0 0 false true)
      (IDimensions.mk 800) (Some (IRect.mk (-20) 40 60))
      (Some (IRect.mk (-50) 40 90)) in
  st_isSticky (state (snd (fst run)))
  && st_isDockedToBottom (state (snd (fst run))) = false.
Proof.
  cbv zeta.
  apply (handleScrollUpdate_state_exclusive (mkPlatform true true false)
           (mkSticky (mkProps (Some (mkRef None)) (StickyOffset.mk 0 0) 0
                        end_ false false false true)
              (mkRef None) false
              (mkState true true false end_ IPositionStyles.empty false)));
    reflexivity.
Defined.

Lemma handleScrollUpdate_raises_aux (env : Platform) (this : Sticky)
    (scroll : IScroll.t) (dimensions : IDimensions.t)
    (stickyRect containerRect : option IRect.t) :
    fst (fst (handleScrollUpdate env this scroll dimensions stickyRect
                containerRect)) = TypeError
    <-> disabled (props this) = false
        /\ fst (fst (shouldUseNativeSticky env this
                       (getOverflowScrollType this stickyRect dimensions)))
           = false
        /\ calcPositionStyles this stickyRect containerRect scroll
             dimensions = TypeError.
Proof.
  destruct (disabled (props this)) eqn:D.
  - unfold handleScrollUpdate. rewrite D. cbn [fst].
    split; [discriminate | intros [F _]; discriminate].
  - rewrite (handleScrollUpdate_commit env this _ _ _ _ D). cbv zeta.
    rewrite <- (getStickyStyles_raises env).
    destruct (fst (fst (shouldUseNativeSticky env this _))).
    + destruct (if childrenIsFunction (props this) then _ else _)
        as [docked | ] eqn:K; cbn [fst].
      * split; [discriminate | intros (_ & F & _); discriminate].
      * exfalso.
        destruct (childrenIsFunction (props this)); [ | discriminate ].
        destruct (isDockedToBottom_total this stickyRect containerRect
                    dimensions) as [b B].
        congruence.
    + destruct (getStickyStyles env this stickyRect containerRect scroll
                  dimensions) as [styles | ]; cbn [fst].
      * destruct (if childrenIsFunction (props this) then _ else _)
          as [docked | ] eqn:K; cbn [fst].
        -- split; [discriminate | intros (_ & _ & F); discriminate].
        -- exfalso.
           destruct (childrenIsFunction (props this)); [ | discriminate ].
           destruct (isDockedToBottom_total this stickyRect containerRect
                       dimensions) as [b B].
           congruence.
      * tauto.
Qed.

(** X14: an update cycle raises exactly when the instance is enabled,
    native sticky is not in use and [calcPositionStyles] raises; a
    disabled instance and one on native sticky never raise. *)
Theorem handleScrollUpdate_raises_iff :
  forall (env : Platform) (this : Sticky) (scroll : IScroll.t)
         (dimensions : IDimensions.t)
         (stickyRect containerRect : option IRect.t),
    fst (fst (handleScrollUpdate env this scroll dimensions stickyRect
                containerRect)) = TypeError
    <-> disabled (props this) = false
        /\ fst (fst (shouldUseNativeSticky env this
                       (getOverflowScrollType this stickyRect dimensions)))
           = false
        /\ calcPositionStyles this stickyRect containerRect scroll
             dimensions = TypeError.
Proof. exact handleScrollUpdate_raises_aux. Qed.

(** After a cycle that ends normally the styles in the state are, up to
    [shallowEqualPositionStyles], the styles of that cycle. *)
Lemma handleScrollUpdate_styles (env : Platform) (this : Sticky)
    (scroll : IScroll.t) (dimensions : IDimensions.t)
    (stickyRect containerRect : option IRect.t) :
  disabled (props this) = false ->
  fst (fst (handleScrollUpdate env this scroll dimensions stickyRect
              containerRect)) = Ok tt ->
  exists styles : IPositionStyles.t,
    (if fst (fst (shouldUseNativeSticky env this
                    (getOverflowScrollType this stickyRect dimensions)))
     then Ok IPositionStyles.empty
     else getStickyStyles env this stickyRect containerRect scroll
            dimensions) = Ok styles
    /\ shallowEqualPositionStyles styles
         (st_styles
            (state (snd (fst (handleScrollUpdate env this scroll dimensions
                                stickyRect containerRect))))) = true.
Proof.
  intros D H.
  destruct (handleScrollUpdate_ok env this _ _ _ _ D H)
    as (styles & docked & G & _ & E).
  cbv zeta in G, E. exists styles. split; [exact G | ].
  rewrite E.
  match goal with
  | |- context [commit ?u ?s ?a ?b ?c ?d ?t] =>
      pose proof (commit_state u s a b c d t) as C
  end.
  cbv zeta in C. destruct C as (_ & _ & _ & _ & _ & C6). exact C6.
Qed.

(** X15: while native sticky is granted the update cycle cannot raise,
    even with unmeasured rectangles; the state it leaves records native
    sticky together with the empty style; and [offsetTop], the threshold
    of the manual positioning, equals [defaultOffsetTop], the top of the
    group offset being zero. *)
Theorem handleScrollUpdate_native :
  forall (env : Platform) (this : Sticky) (scroll : IScroll.t)
         (dimensions : IDimensions.t)
         (stickyRect containerRect : option IRect.t),
    disabled (props this) = false ->
    fst (fst (shouldUseNativeSticky env this
                (getOverflowScrollType this stickyRect dimensions)))
    = true ->
    let run :=
      handleScrollUpdate env this scroll dimensions stickyRect
        containerRect in
    fst (fst run) = Ok tt
    /\ shallowEqualPositionStyles IPositionStyles.empty
         (st_styles (state (snd (fst run)))) = true
    /\ st_useNativeSticky (state (snd (fst run))) = true
    /\ offsetTop this == defaultOffsetTop (props this).
Proof.
  intros env this scroll dimensions stickyRect containerRect D U. cbv zeta.
  assert (R : fst (fst (handleScrollUpdate env this scroll dimensions
                          stickyRect containerRect)) = Ok tt).
  { destruct (fst (fst (handleScrollUpdate env this scroll dimensions
                          stickyRect containerRect))) as [[] | ] eqn:E;
      [reflexivity | ].
    apply handleScrollUpdate_raises_aux in E.
    destruct E as (_ & F & _). congruence. }
  split; [exact R | ].
  destruct (handleScrollUpdate_styles env this _ _ _ _ D R) as (s & G & Q).
  rewrite U in G. injection G as <-.
  split; [exact Q | ].
  split.
  - destruct (handleScrollUpdate_ok env this _ _ _ _ D R)
      as (styles & docked & _ & _ & E).
    cbv zeta in E. rewrite E.
    match goal with
    | |- context [commit ?u ?s ?a ?b ?c ?d ?t] =>
        pose proof (commit_state u s a b c d t) as C
    end.
    cbv zeta in C. destruct C as (C1 & _). rewrite C1. exact U.
  - rewrite shouldUseNativeSticky_value in U.
    rewrite !andb_true_iff in U. destruct U as (_ & Z).
    apply Qeq_bool_iff in Z. unfold offsetTop. lra.
Qed.

Lemma handleScrollUpdate_native_witness :
  let env := mkPlatform true true false in
  let this :=
    newSticky (mkProps None (StickyOffset.mk 0 0) 16 end_
                 false true false false) in
  let run :=
    handleScrollUpdate env this (IScroll.mk 0 0 0 false false)
      (IDimensions.mk 800) None None in
  fst (fst run) = Ok tt
  /\ st_useNativeSticky (state (snd (fst run))) = true.
Proof.
  cbv zeta.
  destruct (handleScrollUpdate_native (mkPlatform true true false)
              (newSticky (mkProps None (StickyOffset.mk 0 0) 16 end_
                            false true false false))
              (IScroll.mk 0 0 0 false false) (IDimensions.mk 800)
              None None eq_refl eq_refl) as (R & _ & N & _).
  split; [exact R | exact N].
Defined.

(** Under the [end] policy nothing reads the viewport dimensions. *)
Lemma getOverflowScrollType_end (this : Sticky) (rect : option IRect.t)
    (dimensions : IDimensions.t) :
  overflowScroll (props this) = end_ ->
  getOverflowScrollType this rect dimensions = end_.
Proof. unfold getOverflowScrollType. intros ->. reflexivity. Qed.

Lemma isSticky_end_dimensions (this : Sticky)
    (rect containerRect : option IRect.t) (d1 d2 : IDimensions.t) :
  overflowScroll (props this) = end_ ->
  isSticky this rect containerRect d1 = isSticky this rect containerRect d2.
Proof. unfold isSticky. intros ->. reflexivity. Qed.

Lemma isDockedToBottom_end_dimensions (this : Sticky)
    (rect containerRect : option IRect.t) (d1 d2 : IDimensions.t) :
  overflowScroll (props this) = end_ ->
  isDockedToBottom this rect containerRect d1
  = isDockedToBottom this rect containerRect d2.
Proof. unfold isDockedToBottom. intros ->. reflexivity. Qed.

Lemma getStickyStyles_end_dimensions (env : Platform) (this : Sticky)
    (rect containerRect : option IRect.t) (scroll : IScroll.t)
    (d1 d2 : IDimensions.t) :
  overflowScroll (props this) = end_ ->
  getStickyStyles env this rect containerRect scroll d1
  = getStickyStyles env this rect containerRect scroll d2.
Proof.
  intro P. unfold getStickyStyles, calcPositionStyles.
  rewrite (isSticky_end_dimensions this _ _ d1 d2 P).
  rewrite (isDockedToBottom_end_dimensions this _ _ d1 d2 P).
  rewrite !(getOverflowScrollType_end this _ _ P).
  reflexivity.
Qed.

(** X16: whenever [render] tells [ObserveViewport] not to deliver
    dimension updates (the instance is disabled or its overflow policy
    is not [flow]), the update cycle does not depend on the viewport
    dimensions: two cycles that differ in the dimensions alone end the
    same way, in the same instance, with the same output. *)
Theorem handleScrollUpdate_ignores_dimensions :
  forall (env : Platform) (this : Sticky) (scroll : IScroll.t)
         (d1 d2 : IDimensions.t)
         (stickyRect containerRect : option IRect.t),
    disableDimensionsUpdates (renderObserveViewport this) = true ->
    handleScrollUpdate env this scroll d1 stickyRect containerRect
    = handleScrollUpdate env this scroll d2 stickyRect containerRect.
Proof.
  intros env this scroll d1 d2 stickyRect containerRect H.
  unfold renderObserveViewport in H. cbn [disableDimensionsUpdates] in H.
  destruct (disabled (props this)) eqn:D.
  - unfold handleScrollUpdate. rewrite D. reflexivity.
  - cbn [orb] in H.
    assert (P : overflowScroll (props this) = end_).
    { destruct (overflowScroll (props this)); [discriminate | reflexivity]. }
    rewrite !(handleScrollUpdate_commit env this _ _ _ _ D). cbv zeta.
    rewrite !(getOverflowScrollType_end this _ _ P).
    rewrite (getStickyStyles_end_dimensions env this _ _ _ d1 d2 P).
    rewrite (isSticky_end_dimensions this _ _ d1 d2 P).
    rewrite (isDockedToBottom_end_dimensions this _ _ d1 d2 P).
    reflexivity.
Qed.

Lemma handleScrollUpdate_ignores_dimensions_witness :
  let env := mkPlatform true true false in
  let this :=
    newSticky (mkProps (Some (mkRef None)) (StickyOffset.mk 0 0) 20 end_
                 false false false true) in
  handleScrollUpdate env this (IScroll.mk 30 0 0 false true)
    (IDimensions.mk 800) (Some (IRect.mk 20 1000 980))
    (Some (IRect.mk 10 5000 4990))
  = handleScrollUpdate env this (IScroll.mk 30 0 0 false true)
      (IDimensions.mk 300) (Some (IRect.mk 20 1000 980))
      (Some (IRect.mk 10 5000 4990)).
Proof.
  cbv zeta. apply handleScrollUpdate_ignores_dimensions. reflexivity.
Defined.

(** ** The warning *)

Lemma ref_sne_iff (a b : ref) : ref_sne a b = true <-> a <> b.
Proof.
  destruct a as [ | | i], b as [ | | j]; cbn;
    try (split; [discriminate | congruence]);
    try (split; [congruence | intro N; exfalso; apply N; reflexivity]).
  rewrite negb_true_iff, Nat.eqb_neq. split; congruence.
Qed.

(** X17: a call of [shouldUseNativeSticky] prints the warning exactly
    when it grants native sticky, the build is not a production build,
    the flag is still unset and the parent of the placeholder is not the
    element of the container; in every other case it prints nothing.
    The flag is set afterwards exactly when it was set before or the
    call has printed. *)
Theorem shouldUseNativeSticky_warns_iff :
  forall (env : Platform) (this : Sticky) (applied : OverflowScrollType),
    let step := shouldUseNativeSticky env this applied in
    (snd step = [nativeStickyWarning]
     <-> fst (fst step) = true
         /\ production env = false
         /\ nativeStickyThrewOnce this = false
         /\ placeholderParent this <> containerElement this)
    /\ (snd step = [] \/ snd step = [nativeStickyWarning])
    /\ (nativeStickyThrewOnce (snd (fst step)) = true
        <-> nativeStickyThrewOnce this = true
            \/ snd step = [nativeStickyWarning]).
Proof.
  intros env this applied. cbv zeta.
  rewrite <- ref_sne_iff.
  unfold shouldUseNativeSticky.
  destruct (_ || _); cbn [fst snd].
  - intuition discriminate.
  - destruct (production env), (nativeStickyThrewOnce this) eqn:F,
      (ref_sne (placeholderParent this) (containerElement this));
      cbn [negb andb fst snd nativeStickyThrewOnce];
      try rewrite F; intuition (discriminate || congruence).
Qed.

Lemma shouldUseNativeSticky_production (env : Platform) (this : Sticky)
    (applied : OverflowScrollType) :
  production env = true ->
  snd (shouldUseNativeSticky env this applied) = [].
Proof.
  intro P. unfold shouldUseNativeSticky. rewrite P. cbn [negb andb].
  destruct (_ || _); reflexivity.
Qed.

(** X18: a production build never prints: no sequence of native-sticky
    decisions and no update cycle writes to the console. *)
Theorem production_build_is_silent :
  forall (env : Platform),
    production env = true ->
    (forall (this : Sticky) (calls : list Call),
        snd (decisions env this calls) = [])
    /\ (forall (this : Sticky) (scroll : IScroll.t)
               (dimensions : IDimensions.t)
               (stickyRect containerRect : option IRect.t),
           snd (handleScrollUpdate env this scroll dimensions stickyRect
                  containerRect) = []).
Proof.
  intros env P. split.
  - intros this calls. revert this.
    induction calls as [ | c cs IH]; intro this; [reflexivity | ].
    rewrite decisions_cons. cbv zeta. cbn [snd].
    rewrite shouldUseNativeSticky_production by exact P.
    apply IH.
  - intros this scroll dimensions stickyRect containerRect.
    destruct (disabled (props this)) eqn:D.
    + unfold handleScrollUpdate. rewrite D. reflexivity.
    + rewrite (handleScrollUpdate_commit env this _ _ _ _ D). cbv zeta.
      destruct (if fst (fst (shouldUseNativeSticky env this _)) then _
                else _); cbn [snd].
      * destruct (if childrenIsFunction (props this) then _ else _);
          cbn [snd]; apply shouldUseNativeSticky_production; exact P.
      * apply shouldUseNativeSticky_production; exact P.
Qed.

Lemma production_build_is_silent_witness :
  snd (decisions (mkPlatform true true true)
         (newSticky (mkProps None (StickyOffset.mk 0 0) 0 end_
                       false true false false))
         [mkCall (mkProps None (StickyOffset.mk 0 0) 0 end_
                    false true false false)
            (mkRef (Some (mkHTMLElement 1 (Some 0%nat)))) initialState
            end_])
  = [].
Proof.
  apply (proj1 (production_build_is_silent (mkPlatform true true true)
                  eq_refl)).
Defined.

(** X19: when the placeholder is mounted directly under the element of
    the declared container, no call of [shouldUseNativeSticky] prints,
    in any build and whatever the flag. *)
Theorem direct_child_never_warns :
  forall (env : Platform) (this : Sticky) (applied : OverflowScrollType)
         (containerRef : RefObject) (containerEl placeholderEl : HTMLElement),
    container (props this) = Some containerRef ->
    current containerRef = Some containerEl ->
    current (placeholderRef this) = Some placeholderEl ->
    parentElement placeholderEl = Some (el_id containerEl) ->
    snd (shouldUseNativeSticky env this applied) = [].
Proof.
  intros env this applied cr ce pe C1 C2 P1 P2.
  unfold shouldUseNativeSticky, placeholderParent, containerElement.
  rewrite C1, C2, P1, P2. cbn [ref_sne].
  rewrite Nat.eqb_refl. cbn [negb]. rewrite !andb_false_r.
  destruct (_ || _); reflexivity.
Qed.

Lemma direct_child_never_warns_witness :
  snd (shouldUseNativeSticky (mkPlatform true true false)
         (mkSticky
            (mkProps (Some (mkRef (Some (mkHTMLElement 7 None))))
               (StickyOffset.mk 0 0) 0 end_ false true false false)
            (mkRef (Some (mkHTMLElement 8 (Some 7%nat)))) false
            initialState)
         end_)
  = [].
Proof.
  apply (direct_child_never_warns _ _ _ (mkRef (Some (mkHTMLElement 7 None)))
           (mkHTMLElement 7 None) (mkHTMLElement 8 (Some 7%nat)));
    reflexivity.
Defined.

(** X20: without a [container] prop the comparison has [undefined] on
    its right side, so in a development build the first call that
    grants native sticky prints the warning as soon as the placeholder
    is mounted, attached to a parent or not. *)
Theorem no_container_warns :
  forall (env : Platform) (this : Sticky) (applied : OverflowScrollType)
         (placeholderEl : HTMLElement),
    container (props this) = None ->
    current (placeholderRef this) = Some placeholderEl ->
    production env = false ->
    nativeStickyThrewOnce this = false ->
    fst (fst (shouldUseNativeSticky env this applied)) = true ->
    snd (shouldUseNativeSticky env this applied) = [nativeStickyWarning].
Proof.
  intros env this applied pe C P D F.
  unfold shouldUseNativeSticky, placeholderParent, containerElement.
  rewrite C, P, D, F.
  destruct (_ || _); cbn [fst snd]; [discriminate | ].
  destruct (parentElement pe); reflexivity.
Qed.

Lemma no_container_warns_witness :
  snd (shouldUseNativeSticky (mkPlatform true true false)
         (mkSticky
            (mkProps None (StickyOffset.mk 0 0) 0 end_
               false true false false)
            (mkRef (Some (mkHTMLElement 8 None))) false initialState)
         end_)
  = [nativeStickyWarning].
Proof.
  apply (no_container_warns _ _ _ (mkHTMLElement 8 None)); reflexivity.
Defined.

(** ** The provider over time *)

Lemma updateStickyOffset_le (top height : number)
    (this : StickyScrollUpProvider.t) :
  let o :=
    StickyScrollUpProvider.stickyOffset0
      (StickyScrollUpProvider.updateStickyOffset top height this) in
  StickyOffset.top o <= StickyOffset.height o.
Proof. cbn. unfold Math_min. apply Q.le_min_r. Qed.

Lemma updates_snoc (calls : list (number * number)) (top height : number) :
  forall this,
    updates (calls ++ [(top, height)]) this
    = StickyScrollUpProvider.updateStickyOffset top height
        (updates calls this).
Proof.
  induction calls as [ | [t h] cs IH]; intro this; cbn [app updates].
  - reflexivity.
  - apply IH.
Qed.

(** X21: over every sequence of [updateStickyOffset] calls on a fresh
    provider the offset keeps [top <= height]; and the offset after a
    sequence is decided by its last call alone, whatever came before. *)
Theorem updates_invariant :
  forall (calls : list (number * number)) (top height : number)
         (this : StickyScrollUpProvider.t),
    (let o :=
       StickyScrollUpProvider.stickyOffset0
         (updates calls StickyScrollUpProvider.init) in
     StickyOffset.top o <= StickyOffset.height o)
    /\ updates (calls ++ [(top, height)]) this
       = StickyScrollUpProvider.updateStickyOffset top height
           StickyScrollUpProvider.init.
Proof.
  intros calls top height this. split.
  - induction calls as [ | c cs IH] using rev_ind.
    + cbn. apply Qle_refl.
    + destruct c as [t h]. rewrite updates_snoc.
      apply updateStickyOffset_le.
  - rewrite updates_snoc. reflexivity.
Qed.



(** ** The earlier Sticky against the current one *)

(** X23: the proximity window has only grown: a rectangle the earlier
    component counts as near the viewport (padding 300) is near for the
    current one (padding 700). *)
Theorem Earlier_near_implies_near :
  forall r : IRect.t,
    Earlier.isNearToViewport (Some r) = Ok true ->
    isNearToViewport (Some r) = true.
Proof.
  intros r. unfold Earlier.isNearToViewport, isNearToViewport.
  cbn [Js.prop Js.bind Js.chain].
  destruct (Js.lt (IRect.top r - 300) 0) eqn:T; [ | discriminate ].
  cbn [Js.bind]. intro H. injection H as B.
  apply lt_iff in T. apply gt_iff in B.
  pose proof (or_num_some (IRect.top r)) as ET.
  pose proof (or_num_some (IRect.bottom r)) as EB.
  apply andb_true_iff. split; [apply lt_iff | apply gt_iff]; lra.
Qed.

Lemma Earlier_near_implies_near_witness :
  isNearToViewport (Some (IRect.mk (-100) 250 350)) = true.
Proof. apply Earlier_near_implies_near. reflexivity. Defined.

Lemma le_comp (x x' y : number) : x == x' -> Js.le x y = Js.le x' y.
Proof. intro E. unfold Js.le. rewrite E. reflexivity. Qed.

Lemma le_comp_r (x y y' : number) : y == y' -> Js.le x y = Js.le x y'.
Proof. intro E. unfold Js.le. rewrite E. reflexivity. Qed.

Lemma lt_comp_l (x x' y : number) : x == x' -> Js.lt x y = Js.lt x' y.
Proof. intro E. unfold Js.lt. rewrite E. reflexivity. Qed.

Lemma lt_comp_r (x y y' : number) : y == y' -> Js.lt x y = Js.lt x y'.
Proof. intro E. unfold Js.lt. rewrite E. reflexivity. Qed.

(** X24: on whole-pixel container coordinates and under the [end]
    policy the current predicates agree with the earlier ones:
    [isSticky] always, [isDockedToBottom] when the element is not taller
    than its container (the case the current component newly excludes). *)
Theorem Earlier_agrees_on_whole_pixels :
  forall (this : Sticky) (r c : IRect.t) (dimensions : IDimensions.t),
    overflowScroll (props this) = end_ ->
    Math_round (IRect.top c) == IRect.top c ->
    Math_round (IRect.bottom c) == IRect.bottom c ->
    Earlier.isSticky this (Some r) (Some c)
    = Ok (isSticky this (Some r) (Some c) dimensions)
    /\ (IRect.height r <= IRect.height c ->
        Earlier.isDockedToBottom this (Some r) (Some c)
        = isDockedToBottom this (Some r) (Some c) dimensions).
Proof.
  intros this r c dimensions P T B. split.
  - unfold Earlier.isSticky, isSticky. rewrite P.
    cbn [OverflowScrollType_eqb Js.prop Js.bind Js.chain].
    rewrite !Math_round_or_num.
    rewrite (le_comp _ _ _ T).
    unfold Js.gt. rewrite (lt_comp_r _ _ _ T).
    assert (E : Math_round (IRect.bottom c) - offsetTop this
                == IRect.bottom c - offsetTop this) by (rewrite B; reflexivity).
    rewrite (lt_comp_l _ _ _ E).
    rewrite (lt_comp_r _ _ _ (or_num_some (IRect.height r))).
    destruct (negb (hasContainer this)); [reflexivity | ].
    destruct (Js.lt (offsetTop this) (IRect.top c)); [reflexivity | ].
    destruct (Js.lt _ _); reflexivity.
  - intro L. unfold Earlier.isDockedToBottom, isDockedToBottom. rewrite P.
    cbn [OverflowScrollType_eqb Js.prop Js.bind].
    destruct (negb (hasContainer this)); [reflexivity | ].
    assert (G : Js.gt (IRect.height r) (IRect.height c) = false)
      by (apply lt_false_iff; exact L).
    rewrite G.
    assert (E : Math_round (IRect.bottom c) - offsetTop this
                == IRect.bottom c - offsetTop this) by (rewrite B; reflexivity).
    unfold Js.ge. rewrite (le_comp_r _ _ _ E). reflexivity.
Qed.

Lemma Earlier_agrees_on_whole_pixels_witness :
  Earlier.isSticky
    (newSticky (mkProps (Some (mkRef None)) (StickyOffset.mk 0 0) 20 end_
                  false false false false))
    (Some (IRect.mk 20 70 50)) (Some (IRect.mk 10 500 490))
  = Ok (isSticky
          (newSticky (mkProps (Some (mkRef None)) (StickyOffset.mk 0 0) 20
                        end_ false false false false))
          (Some (IRect.mk 20 70 50)) (Some (IRect.mk 10 500 490))
          (IDimensions.mk 800)).
Proof.
  refine (proj1 (Earlier_agrees_on_whole_pixels
                   (newSticky (mkProps (Some (mkRef None))
                                 (StickyOffset.mk 0 0) 20 end_
                                 false false false false))
                   (IRect.mk 20 70 50) (IRect.mk 10 500 490)
                   (IDimensions.mk 800) eq_refl _ _));
    reflexivity.
Defined.

(** X25: in the earlier component, with a container whose top has
    reached the offset, a measured element is either sticky or docked,
    never both and never neither. *)
Theorem Earlier_sticky_or_docked :
  forall (this : Sticky) (r c : IRect.t),
    hasContainer this = true ->
    IRect.top c <= offsetTop this ->
    exists b : bool,
      Earlier.isSticky this (Some r) (Some c) = Ok b
      /\ Earlier.isDockedToBottom this (Some r) (Some c) = Ok (negb b).
Proof.
  intros this r c H T.
  unfold Earlier.isSticky, Earlier.isDockedToBottom. rewrite H.
  cbn [negb Js.prop Js.bind].
  assert (G : Js.gt (IRect.top c) (offsetTop this) = false)
    by (apply lt_false_iff; exact T).
  rewrite G. unfold Js.ge, Js.lt, Js.le.
  destruct (Qle_bool (IRect.height r) (IRect.bottom c - offsetTop this));
    cbn [negb]; eexists; split; reflexivity.
Qed.

Lemma Earlier_sticky_or_docked_witness :
  exists b : bool,
    Earlier.isSticky
      (newSticky (mkProps (Some (mkRef None)) (StickyOffset.mk 0 0) 0 end_
                    false false false false))
      (Some (IRect.mk (-20) 40 60)) (Some (IRect.mk (-50) 40 90)) = Ok b
    /\ Earlier.isDockedToBottom
         (newSticky (mkProps (Some (mkRef None)) (StickyOffset.mk 0 0) 0
                       end_ false false false false))
         (Some (IRect.mk (-20) 40 60)) (Some (IRect.mk (-50) 40 90))
       = Ok (negb b).
Proof.
  apply Earlier_sticky_or_docked; [reflexivity | ].
  vm_compute. discriminate.
Defined.

(** X26: an element taller than its container that no longer fits
    below the offset.  The earlier component docks it with a negative
    top, [containerRect.height - rect.height]; the current component,
    under the [end] policy, neither pins nor docks it and leaves it at
    top 0. *)
Theorem taller_than_container :
  forall (this : Sticky) (r c : IRect.t) (scroll : IScroll.t)
         (dimensions : IDimensions.t),
    hasContainer this = true ->
    overflowScroll (props this) = end_ ->
    IRect.height c < IRect.height r ->
    IRect.bottom c - offsetTop this < IRect.height r ->
    Math_round (IRect.bottom c) - offsetTop this < IRect.height r ->
    Earlier.calcPositionStyles this (Some r) (Some c) scroll
    = Ok (style absolute (IRect.height c - IRect.height r))
    /\ IRect.height c - IRect.height r < 0
    /\ calcPositionStyles this (Some r) (Some c) scroll dimensions
       = Ok (style absolute 0).
Proof.
  intros this r c scroll dimensions H P T L L'.
  split; [ | split ].
  - unfold Earlier.calcPositionStyles, Earlier.isSticky,
      Earlier.isDockedToBottom.
    rewrite H. cbn [negb Js.prop Js.bind].
    apply lt_iff in L.
    assert (GE : Js.ge (IRect.bottom c - offsetTop this) (IRect.height r)
                 = false) by (apply lt_true_ge_false; exact L).
    destruct (Js.gt (IRect.top c) (offsetTop this));
      cbn [Js.bind]; rewrite ?L; cbn [Js.bind]; rewrite GE; reflexivity.
  - lra.
  - unfold calcPositionStyles.
    assert (S : isSticky this (Some r) (Some c) dimensions = false).
    { unfold isSticky. rewrite H, P.
      cbn [negb OverflowScrollType_eqb Js.chain].
      destruct (Js.gt _ _); [reflexivity | ].
      rewrite Math_round_or_num.
      assert (X : Js.lt (Math_round (IRect.bottom c) - offsetTop this)
                    (or_num (Some (IRect.height r)) 0) = true).
      { apply lt_iff. apply or_num_lt_r. exact L'. }
      rewrite X. reflexivity. }
    rewrite S.
    unfold isDockedToBottom. rewrite H. cbn [negb Js.prop Js.bind].
    assert (G : Js.gt (IRect.height r) (IRect.height c) = true)
      by (apply gt_iff; exact T).
    rewrite G. reflexivity.
Qed.

Lemma taller_than_container_witness :
  Earlier.calcPositionStyles
    (newSticky (mkProps (Some (mkRef None)) (StickyOffset.mk 0 0) 0 end_
                  false false false false))
    (Some (IRect.mk (-60) 40 100)) (Some (IRect.mk (-50) 40 90))
    (IScroll.mk 50 0 0 false true)
  = Ok (style absolute (90 - 100)).
Proof.
  refine (proj1 (taller_than_container
                   (newSticky (mkProps (Some (mkRef None))
                                 (StickyOffset.mk 0 0) 0 end_
                                 false false false false))
                   (IRect.mk (-60) 40 100) (IRect.mk (-50) 40 90) _
                   (IDimensions.mk 800) eq_refl eq_refl _ _ _));
    reflexivity.
Defined.

(** ** The flow algorithm by scroll direction *)

(** X27: the scroll direction limits what the flow algorithm can
    answer.  While the page scrolls down the element is reset to the top
    of its container, pinned by its bottom edge or tracked, and never
    pinned at [offsetTop]; while it does not scroll down the element is
    reset, tracked or pinned at [offsetTop]: the branch that pins it by
    its bottom edge is closed. *)
Theorem flow_by_direction :
  forall (this : Sticky) (rectSticky : option IRect.t)
         (containerRect : IRect.t) (scroll : IScroll.t)
         (dimensions : IDimensions.t),
    let r :=
      calcOverflowScrollFlowStickyStyles this rectSticky (Some containerRect)
        scroll dimensions in
    let reset := Ok (style absolute 0) in
    let bottom :=
      Ok (style fixed
            (- calcHeightDifference rectSticky (Some dimensions))) in
    let track :=
      Ok (style absolute
            (flowTrackingTop (Math_round (IScroll.y scroll))
               (Math_round (or_num (rectSticky ?. IRect.top) 0))
               (Math_round (IRect.top containerRect)))) in
    let top := Ok (style fixed (offsetTop this)) in
    (IScroll.isScrollingDown scroll = true ->
     r = reset \/ r = bottom \/ r = track)
    /\ (IScroll.isScrollingDown scroll = false ->
        r = reset \/ r = track \/ r = top).
Proof.
  intros this rectSticky c scroll dimensions. cbv zeta.
  unfold calcOverflowScrollFlowStickyStyles. cbn [Js.prop Js.bind].
  cbv zeta.
  repeat match goal with
         | |- context [Js.le ?a ?b] =>
             let x := fresh "t" in set (x := Js.le a b); clearbody x
         | |- context [Js.lt ?a ?b] =>
             let x := fresh "t" in set (x := Js.lt a b); clearbody x
         | |- context [Js.gt ?a ?b] =>
             let x := fresh "t" in set (x := Js.gt a b); clearbody x
         | |- context [Js.ge ?a ?b] =>
             let x := fresh "t" in set (x := Js.ge a b); clearbody x
         end.
  split; intro D; rewrite D;
    destruct (IScroll.isScrollingUp scroll);
    repeat match goal with
           | b : bool |- _ => destruct b
           end;
    cbn [andb orb negb]; auto.
Qed.

Lemma flow_by_direction_witness :
  let r :=
    calcOverflowScrollFlowStickyStyles
      (newSticky (mkProps None (StickyOffset.mk 0 0) 0 flow
                    false false false false))
      (Some (IRect.mk (-300) 600 900)) (Some (IRect.mk (-300) 1700 2000))
      (IScroll.mk 300 0 0 false true) (IDimensions.mk 600) in
  r = Ok (style absolute 0)
  \/ r = Ok (style fixed
               (- calcHeightDifference (Some (IRect.mk (-300) 600 900))
                    (Some (IDimensions.mk 600))))
  \/ r = Ok (style absolute
               (flowTrackingTop (Math_round 300)
                  (Math_round (or_num (Some (-300)) 0))
                  (Math_round (-300)))).
Proof.
  cbv zeta.
  apply (proj1 (flow_by_direction
                  (newSticky (mkProps None (StickyOffset.mk 0 0) 0 flow
                                false false false false))
                  (Some (IRect.mk (-300) 600 900))
                  (IRect.mk (-300) 1700 2000)
                  (IScroll.mk 300 0 0 false true) (IDimensions.mk 600))).
  reflexivity.
Defined.
